(** * The cleaned-dataset loader of [notebooks/load_cleaned_dataset.py]

    A shallow embedding of [get_cleaned_df] and [_set_types].  The loader is
    glue code between the operating system ([os.listdir], [os.path.join]) and
    pandas ([pd.read_csv], [pd.to_datetime], [astype]).  The glue is embedded
    as it is written: a [try]/[except Exception] block, a local variable [df]
    that may still be unbound at the final [return], and a data frame that
    [_set_types] mutates in place.  The pandas primitives are an interface
    ([Pandas]); the directory listing and the file contents are the
    environment ([World]).  What the loader promises about the values of
    the table it returns rests on what pandas does with the text of the
    file; that part of pandas is stated as laws ([CsvLaws], [ValueLaws]) for
    files of plain comma-separated text.  An executable instance of the
    interface, [MiniPandas], satisfies the laws and is used to run the
    loader on sample directories. *)

From Stdlib Require Import List String Ascii Bool Arith ZArith Lia.
From Stdlib Require Import Permutation DecimalString SpecFloat.
Import ListNotations.
Open Scope string_scope.

Set Implicit Arguments.

(** ** Python strings *)

Module PyStr.

(** [s.endswith(suffix)]: the last [len(suffix)] characters of [s] are
    [suffix]. *)
Definition endswith (s suffix : string) : bool :=
  let n := String.length s in
  let m := String.length suffix in
  (m <=? n)%nat && String.eqb (substring (n - m) m s) suffix.

(** [s.startswith(p)]. *)
Definition startswith (s p : string) : bool := prefix p s.

(** [sub in s]: [sub] occurs somewhere in [s]. *)
Fixpoint contains (sub s : string) : bool :=
  prefix sub s ||
  match s with
  | EmptyString => false
  | String _ s' => contains sub s'
  end.

(** [not s] for a string: the empty string is falsy. *)
Definition is_empty (s : string) : bool :=
  match s with EmptyString => true | _ => false end.

(** [str(n)] for a non-negative integer. *)
Definition of_nat (n : nat) : string :=
  NilEmpty.string_of_uint (Nat.to_uint n).

(** Digits grouped by three from the right, as the [,] format option does. *)
Fixpoint group_rev (ds : list ascii) (k : nat) : list ascii :=
  match ds with
  | [] => []
  | d :: ds' =>
      match k, ds' with
      | 2, _ :: _ => d :: ","%char :: group_rev ds' 0
      | _, _ => d :: group_rev ds' (S k)
      end
  end.

(** [f"{n:,}"] for a non-negative integer. *)
Definition format_thousands (n : nat) : string :=
  string_of_list_ascii
    (rev (group_rev (rev (list_ascii_of_string (of_nat n))) 0)).

Definition pad2 (n : nat) : string :=
  if (n <? 10)%nat then "0" ++ of_nat n else of_nat n.

(** [f"{b / 1024**2:.2f}"] for a non-negative byte count [b].  Dividing by
    a power of two is exact in binary floating point, so the printed text
    is [b / 2^20] rounded to two decimals, ties to even. *)
Definition format_mb (b : N) : string :=
  let q := (b * 100)%N in
  let n := N.shiftr q 20 in
  let r := N.land q (N.ones 20) in
  let half := N.shiftl 1 19 in
  let up := orb (half <? r)%N (andb (r =? half)%N (N.odd n)) in
  let cents := N.to_nat (if up then n + 1 else n)%N in
  of_nat (cents / 100) ++ "." ++ pad2 (cents mod 100).

End PyStr.

(** ** [posixpath.join] for two components *)

Definition os_path_join (a b : string) : string :=
  if PyStr.startswith b "/" then b
  else if PyStr.is_empty a || PyStr.endswith a "/" then a ++ b
  else a ++ "/" ++ b.

(** ** Exceptions

    Every class below derives from [Exception], so [except Exception]
    catches each of them.  [exn_str] is [str(e)], the text the handler
    prints. *)

Inductive exn_class : Type :=
| FileNotFoundError
| OSError
| UnboundLocalError
| IndexError
| KeyError
| ValueError
| OverflowError
| TypeError
| ParserError.

Record exn : Type := Exn { exn_type : exn_class; exn_str : string }.

Inductive result (A : Type) : Type :=
| Ok (a : A)
| Raise (e : exn).
Arguments Ok {A} a.
Arguments Raise {A} e.

(** Reading a local variable that no assignment has bound yet. *)
Definition unbound_local (name : string) : exn :=
  Exn UnboundLocalError
    ("cannot access local variable '" ++ name ++
     "' where it is not associated with a value").

(** ** Statements: state passing with exceptions

    A statement takes the state it runs in and gives the state it leaves
    behind, together with either a value or the exception it raised.  The
    state survives an exception: what was printed or mutated before the
    [raise] stays printed and mutated. *)

Definition M (St A : Type) : Type := St -> result A * St.

Definition ret {St A} (a : A) : M St A := fun st => (Ok a, st).

Definition bind {St A B} (m : M St A) (k : A -> M St B) : M St B :=
  fun st =>
    match m st with
    | (Ok a, st') => k a st'
    | (Raise e, st') => (Raise e, st')
    end.

Definition raise {St A} (e : exn) : M St A := fun st => (Raise e, st).

Definition lift {St A} (r : result A) : M St A := fun st => (r, st).

(** [try: body except Exception as e: handler(e)]. *)
Definition try_except {St} (body : M St unit) (handler : exn -> M St unit)
  : M St unit :=
  fun st =>
    match body st with
    | (Ok tt, st') => (Ok tt, st')
    | (Raise e, st') => handler e st'
    end.

Notation "x <- m ;; k" := (bind m (fun x => k))
  (at level 61, m at next level, right associativity).
Notation "m ;; k" := (bind m (fun _ => k))
  (at level 61, right associativity).

(** ** pandas: data frames and the primitives the loader calls *)

(** Column types ([Series.dtype]) that occur in the loader: [object_] is the
    type of a column of Python strings, [datetime64] of timestamps, and
    [uint64] is what the parser gives a column of non-negative integers
    that do not all fit in 64 signed bits. *)
Inductive dtype : Type :=
| object_
| int64
| uint64
| float64
| datetime64
| category.

(** What a cell of a column holds: a Python string, an integer, a binary64
    float, a timestamp (nanoseconds since the epoch, no time zone) or the
    missing timestamp. *)
Inductive cell : Type :=
| Str (s : string)
| Int (z : Z)
| Float (x : spec_float)
| Timestamp (ns : Z)
| NaT.

(** A data frame: a row index of [index] rows ([len(df)]) and named columns
    in their order. *)
Record DataFrame (S : Type) : Type :=
  { index : nat; columns : list (string * S) }.

(** The pandas primitives.  [values] is what a column holds, row by row
    ([Series.tolist()]); [read_csv_text] is [pd.read_csv] after the file
    has been opened and read; [memory_usage_sum] is
    [df.memory_usage().sum()], a byte count; [not_in_index ks missing] is
    the [KeyError] that [df[ks]] raises when the names [missing] among [ks]
    are no columns of the frame (its text names every one of them). *)
Class Pandas : Type :=
  { Series : Type;
    dtype_of : Series -> dtype;
    values : Series -> list cell;
    to_datetime : Series -> result Series;
    astype : dtype -> Series -> result Series;
    read_csv_text : string -> result (DataFrame Series);
    memory_usage_sum : DataFrame Series -> N;
    not_in_index : list string -> list string -> exn }.

(** What pandas documents about the type of a converted column. *)
Class PandasLaws (P : Pandas) : Prop :=
  { to_datetime_dtype :
      forall s s', to_datetime s = Ok s' -> dtype_of s' = datetime64;
    astype_dtype :
      forall t s s', astype t s = Ok s' -> dtype_of s' = t }.

(** The environment of a call: what [os.listdir] answers for a directory and
    what opening a path for reading gives. *)
Record World : Type :=
  { os_listdir : string -> result (list string);
    read_text : string -> result string }.

(** A frame of execution: the data frame variable [df] and what has been
    printed so far.  In [get_cleaned_df] the variable may be unbound
    ([V] is an option); in [_set_types] it is the parameter, bound to the
    caller's object. *)
Record Env (V : Type) : Type := { var_df : V; stdout : list string }.

Definition print {V} (line : string) : M (Env V) unit :=
  fun st => (Ok tt, {| var_df := var_df st; stdout := stdout st ++ [line] |}).

Section Frames.

Context {P : Pandas}.

Local Abbreviation Frame := (DataFrame Series).

(** The first column called [k]. *)
Fixpoint lookup (k : string) (cols : list (string * Series))
  : option Series :=
  match cols with
  | [] => None
  | (n, s) :: cols' => if String.eqb n k then Some s else lookup k cols'
  end.

(** The first column called [k] replaced by [s], in place. *)
Fixpoint replace (k : string) (s : Series) (cols : list (string * Series))
  : list (string * Series) :=
  match cols with
  | [] => []
  | (n, s0) :: cols' =>
      if String.eqb n k then (n, s) :: cols'
      else (n, s0) :: replace k s cols'
  end.

(** [df[k] = s] on the column list: an existing column keeps its place, a
    new one goes to the end. *)
Definition assign (k : string) (s : Series) (cols : list (string * Series))
  : list (string * Series) :=
  match lookup k cols with
  | Some _ => replace k s cols
  | None => cols ++ [(k, s)]
  end.

Definition key_error (k : string) : exn := Exn KeyError ("'" ++ k ++ "'").

(** [df[k]]. *)
Definition getitem (k : string) : M (Env Frame) Series :=
  fun st =>
    match lookup k (columns (var_df st)) with
    | Some s => (Ok s, st)
    | None => (Raise (key_error k), st)
    end.

(** [df[k] = s]: the frame object is updated in place. *)
Definition setitem (k : string) (s : Series) : M (Env Frame) unit :=
  fun st =>
    (Ok tt,
     {| var_df := {| index := index (var_df st);
                     columns := assign k s (columns (var_df st)) |};
        stdout := stdout st |}).

(** The names of [ks] that are no column of [cols], each once, in the
    order of [ks]. *)
Fixpoint missing (ks : list string) (cols : list (string * Series))
  : list string :=
  match ks with
  | [] => []
  | k :: ks' =>
      match lookup k cols with
      | Some _ => missing ks' cols
      | None =>
          k :: filter (fun k' => negb (String.eqb k' k)) (missing ks' cols)
      end
  end.

(** The columns [ks] of a column list, in the order of [ks]; [err] is
    raised as soon as one of them is not there. *)
Fixpoint select_from (err : exn) (ks : list string)
  (cols : list (string * Series)) : result (list (string * Series)) :=
  match ks with
  | [] => Ok []
  | k :: ks' =>
      match lookup k cols with
      | None => Raise err
      | Some s =>
          match select_from err ks' cols with
          | Ok sel => Ok ((k, s) :: sel)
          | Raise e => Raise e
          end
      end
  end.

(** The columns [ks] of a column list.  When some are missing, the
    [KeyError] raised is the one that names all the missing ones. *)
Definition select (ks : list string) (cols : list (string * Series))
  : result (list (string * Series)) :=
  select_from (not_in_index ks (missing ks cols)) ks cols.

(** [df[ks]] for a list of names: a new frame over the same rows. *)
Definition getitem_list (ks : list string) : M (Env Frame) Frame :=
  fun st =>
    match select ks (columns (var_df st)) with
    | Ok sel => (Ok {| index := index (var_df st); columns := sel |}, st)
    | Raise e => (Raise e, st)
    end.

(** Every column converted to [t], left to right; the first failure is
    the failure of the whole conversion. *)
Fixpoint astype_columns (t : dtype) (cols : list (string * Series))
  : result (list (string * Series)) :=
  match cols with
  | [] => Ok []
  | (n, s) :: cols' =>
      match astype t s with
      | Raise e => Raise e
      | Ok s' =>
          match astype_columns t cols' with
          | Ok r => Ok ((n, s') :: r)
          | Raise e => Raise e
          end
      end
  end.

(** [frame.astype(t)]: a new frame, the receiver is not touched. *)
Definition frame_astype (t : dtype) (d : Frame) : result Frame :=
  match astype_columns t (columns d) with
  | Ok cols => Ok {| index := index d; columns := cols |}
  | Raise e => Raise e
  end.

(** [for k1, k2 in zip(ks, value.columns): df[k1] = value[k2]]. *)
Fixpoint assign_zip (ks : list string) (vcols : list (string * Series))
  (value cols : list (string * Series)) : result (list (string * Series)) :=
  match ks, vcols with
  | k1 :: ks', (k2, _) :: vcols' =>
      match lookup k2 value with
      | None => Raise (key_error k2)
      | Some s => assign_zip ks' vcols' value (assign k1 s cols)
      end
  | _, _ => Ok cols
  end.

(** [df[ks] = value] for a list of names and a frame [value] with as many
    columns. *)
Definition setitem_list (ks : list string) (value : Frame)
  : M (Env Frame) unit :=
  fun st =>
    if negb (List.length (columns value) =? List.length ks)%nat then
      (Raise (Exn ValueError "Columns must be same length as key"), st)
    else
      match assign_zip ks (columns value) (columns value)
              (columns (var_df st)) with
      | Ok cols =>
          (Ok tt, {| var_df := {| index := index (var_df st);
                                  columns := cols |};
                     stdout := stdout st |})
      | Raise e => (Raise e, st)
      end.

(** ** [_set_types(df)] *)

Definition int_features : list string :=
  ["VendorID"; "passenger_count"; "RatecodeID";
   "PULocationID"; "DOLocationID"; "payment_type"].

Definition float_features : list string :=
  ["trip_distance"; "fare_amount"; "extra"; "mta_tax";
   "tip_amount"; "tolls_amount"; "improvement_surcharge";
   "total_amount"; "congestion_surcharge"; "Airport_fee";
   "fare_per_mile"; "trip_duration"].

Definition _set_types : M (Env Frame) unit :=
  (* 1. Enforce Datetime Types *)
  v <- (s <- getitem "tpep_pickup_datetime" ;; lift (to_datetime s)) ;;
  setitem "tpep_pickup_datetime" v ;;
  v <- (s <- getitem "tpep_dropoff_datetime" ;; lift (to_datetime s)) ;;
  setitem "tpep_dropoff_datetime" v ;;
  (* 2. Enforce Integer Types *)
  v <- (sub <- getitem_list int_features ;; lift (frame_astype int64 sub)) ;;
  setitem_list int_features v ;;
  (* 3. Enforce Float Types *)
  v <- (sub <- getitem_list float_features ;;
        lift (frame_astype float64 sub)) ;;
  setitem_list float_features v ;;
  (* 4. Enforce Categorical Type *)
  v <- (s <- getitem "store_and_fwd_flag" ;; lift (astype category s)) ;;
  setitem "store_and_fwd_flag" v ;;
  (* Verification *)
  print "Type enforcement complete. New Memory Usage:" ;;
  fun st =>
    print (PyStr.format_mb (memory_usage_sum (var_df st)) ++ " MB") st.

(** ** [get_cleaned_df()] *)

Definition destination : string := "../data/raw".
Definition dataset_name : string :=
  "nyc-yellow-taxi-trip-records-january-2024".
Definition dataset_dir : string := os_path_join destination dataset_name.

Definition cleaned_suffix : string := "_cleaned.csv".

(** [[f for f in files if f.endswith('_cleaned.csv')]]. *)
Definition cleaned_files (files : list string) : list string :=
  filter (fun f => PyStr.endswith f cleaned_suffix) files.

Definition not_found : exn :=
  Exn FileNotFoundError
    "No cleaned dataset found. Please run the cleaning notebook first.".

(** [l[0]]. *)
Definition first {St A} (l : list A) : M St A :=
  match l with
  | x :: _ => ret x
  | [] => raise (Exn IndexError "list index out of range")
  end.

(** [pd.read_csv(path)]: open and read the file, then parse the text. *)
Definition pd_read_csv (w : World) (path : string) : result Frame :=
  match read_text w path with
  | Ok text => read_csv_text text
  | Raise e => Raise e
  end.

(** [df = value]: the local variable becomes bound. *)
Definition store_df (value : Frame) : M (Env (option Frame)) unit :=
  fun st => (Ok tt, {| var_df := Some value; stdout := stdout st |}).

(** Reading the local variable [df]. *)
Definition load_df : M (Env (option Frame)) Frame :=
  fun st =>
    match var_df st with
    | Some d => (Ok d, st)
    | None => (Raise (unbound_local "df"), st)
    end.

(** [callee(df=df)]: the callee works on the caller's object, so what it
    did to the object before raising stays done. *)
Definition call_with_df (callee : M (Env Frame) unit)
  : M (Env (option Frame)) unit :=
  d <- load_df ;;
  fun st =>
    let (r, st') := callee {| var_df := d; stdout := stdout st |} in
    (r, {| var_df := Some (var_df st'); stdout := stdout st' |}).

(** The body of the [try] block. *)
Definition try_body (w : World) : M (Env (option Frame)) unit :=
  files <- lift (os_listdir w dataset_dir) ;;
  let cleaned := cleaned_files files in
  (if match cleaned with [] => true | _ => false end
   then raise not_found else ret tt) ;;
  f0 <- first cleaned ;;
  let cleaned_csv_path := os_path_join dataset_dir f0 in
  print (" Loading Dataset: " ++ cleaned_csv_path) ;;
  (* --- Data Loading --- *)
  d <- lift (pd_read_csv w cleaned_csv_path) ;;
  store_df d ;;
  d <- load_df ;;
  print (" Dataset Loaded Successfully! Total Rows: "
         ++ PyStr.format_thousands (index d)) ;;
  call_with_df _set_types.

Definition error_prefix : string := "âťŚ Error: ".

(** The [except Exception as e] handler. *)
Definition handler (e : exn) : M (Env (option Frame)) unit :=
  print (error_prefix ++ exn_str e).

Definition get_cleaned_df (w : World) : M (Env (option Frame)) Frame :=
  try_except (try_body w) handler ;;
  load_df.

(** The frame in which a call starts: [df] unbound, nothing printed. *)
Definition fresh : Env (option Frame) := {| var_df := None; stdout := [] |}.

(** A call of [get_cleaned_df()]: what the caller receives, a table or an
    exception, and the lines printed during the call. *)
Definition load (w : World) : result Frame * list string :=
  let (r, st) := get_cleaned_df w fresh in
  (r, stdout st).

(** ** The type map of the docstring of [_set_types] *)

Definition datetime_features : list string :=
  ["tpep_pickup_datetime"; "tpep_dropoff_datetime"].

Definition category_features : list string := ["store_and_fwd_flag"].

Definition type_map : list (string * dtype) :=
  map (fun k => (k, datetime64)) datetime_features
  ++ map (fun k => (k, int64)) int_features
  ++ map (fun k => (k, float64)) float_features
  ++ map (fun k => (k, category)) category_features.

(** The declared columns. *)
Definition declared : list string := map fst type_map.

(** The conversion [_set_types] applies to a column declared with type
    [t]. *)
Definition coerce (t : dtype) (s : Series) : result Series :=
  match t with
  | datetime64 => to_datetime s
  | _ => astype t s
  end.

(** Every declared column is present and its conversion raises nothing. *)
Definition convertible (d : Frame) : bool :=
  forallb
    (fun kt =>
       match lookup (fst kt) (columns d) with
       | Some s =>
           match coerce (snd kt) s with Ok _ => true | Raise _ => false end
       | None => false
       end)
    type_map.

(** The two progress lines printed before [_set_types] runs. *)
Definition loading_line (f : string) : string :=
  " Loading Dataset: " ++ os_path_join dataset_dir f.

Definition loaded_line (d : Frame) : string :=
  " Dataset Loaded Successfully! Total Rows: "
  ++ PyStr.format_thousands (index d).

Definition error_line (e : exn) : string := error_prefix ++ exn_str e.

(** Two column lists with the same names in the same order, whose columns
    outside the type map are the same columns. *)
Definition col_rel (c c' : string * Series) : Prop :=
  fst c' = fst c /\ (~ In (fst c) declared -> snd c' = snd c).

Definition same_columns (cols cols' : list (string * Series)) : Prop :=
  Forall2 col_rel cols cols'.

(** The same, for frames: the rows are the same rows as well. *)
Definition same_frame (d d' : Frame) : Prop :=
  index d' = index d /\ same_columns (columns d) (columns d').

(** A later state of the same run: the same frame, and more lines printed
    after those already there. *)
Definition extends (st st' : Env Frame) : Prop :=
  same_frame (var_df st) (var_df st')
  /\ exists more, stdout st' = (stdout st ++ more)%list.

(** A statement that only ever moves to a later state of the run, whether
    it completes or raises. *)
Definition keeps {A} (m : M (Env Frame) A) : Prop :=
  forall st r st', m st = (r, st') -> extends st st'.

(** The columns of [done] hold the converted columns of [cols0]. *)
Definition converted (done : list (string * dtype))
  (cols0 cols : list (string * Series)) : Prop :=
  forall k t s,
    In (k, t) done -> lookup k cols0 = Some s ->
    exists s', coerce t s = Ok s' /\ lookup k cols = Some s'.

(** The columns outside [done] are still those of [cols0]. *)
Definition untouched (done : list (string * dtype))
  (cols0 cols : list (string * Series)) : Prop :=
  forall k, ~ In k (map fst done) -> lookup k cols = lookup k cols0.

(** From a frame in which [done] is converted and the rest untouched, the
    statement [m] completes and leaves every declared column converted. *)
Definition completes (cols0 : list (string * Series))
  (done : list (string * dtype)) (m : M (Env Frame) unit) : Prop :=
  forall st,
    converted done cols0 (columns (var_df st)) ->
    untouched done cols0 (columns (var_df st)) ->
    exists st',
      m st = (Ok tt, st')
      /\ converted type_map cols0 (columns (var_df st')).

(** The declared column [fst kt] is present in [cols0] and its conversion
    to [snd kt] raises nothing. *)
Definition coercible_at (cols0 : list (string * Series))
  (kt : string * dtype) : Prop :=
  exists s s', lookup (fst kt) cols0 = Some s /\ coerce (snd kt) s = Ok s'.

(** The statement [m], started with the columns outside [done] untouched,
    completes only if every column of [todo] is convertible. *)
Definition demands (cols0 : list (string * Series))
  (done todo : list (string * dtype)) (m : M (Env Frame) unit) : Prop :=
  forall st st',
    untouched done cols0 (columns (var_df st)) ->
    m st = (Ok tt, st') ->
    Forall (coercible_at cols0) todo.

(** The two lines [_set_types] prints when it is done. *)
Definition enforcement_line : string :=
  "Type enforcement complete. New Memory Usage:".

Definition memory_line (d : Frame) : string :=
  PyStr.format_mb (memory_usage_sum d) ++ " MB".

(** An assignment of [_set_types]: [df[k] = convert(df[k])] for one
    column, or [df[ks] = df[ks].astype(t)] for a list of them. *)
Inductive stage : Type :=
| column (k : string) (t : dtype)
| group (ks : list string) (t : dtype).

(** The columns an assignment converts, with the type it gives them. *)
Definition stage_columns (g : stage) : list (string * dtype) :=
  match g with
  | column k t => [(k, t)]
  | group ks t => map (fun k => (k, t)) ks
  end.

(** The assignments of [_set_types] in their order. *)
Definition stages : list stage :=
  [column "tpep_pickup_datetime" datetime64;
   column "tpep_dropoff_datetime" datetime64;
   group int_features int64;
   group float_features float64;
   column "store_and_fwd_flag" category].

(** The exception [e] is what the assignment [g] raises on [cols0].  For one
    column: the [KeyError] of its name when it is missing, what its
    conversion raises when it is there.  For a list of columns: the
    [KeyError] that names all the missing ones when some are missing, what
    the conversion of one of them raises when all are there. *)
Definition cause (cols0 : list (string * Series)) (e : exn) (g : stage)
  : Prop :=
  match g with
  | column k t =>
      match lookup k cols0 with
      | None => e = key_error k
      | Some s => coerce t s = Raise e
      end
  | group ks t =>
      match missing ks cols0 with
      | [] =>
          exists k s,
            In k ks /\ lookup k cols0 = Some s /\ coerce t s = Raise e
      | _ :: _ => e = not_in_index ks (missing ks cols0)
      end
  end.

(** The columns converted by the first [n] assignments of [todo]. *)
Definition converted_by (n : nat) (todo : list stage)
  : list (string * dtype) :=
  List.concat (map stage_columns (firstn n todo)).

(** Where a run of [m] that raises has stopped: at one of the assignments
    of [todo], which is the cause of the exception; the assignments before
    it are done, every other column is untouched, the rows are the same and
    nothing has been printed. *)
Definition stops (cols0 : list (string * Series))
  (done : list (string * dtype)) (todo : list stage)
  (m : M (Env Frame) unit) : Prop :=
  forall st e st',
    converted done cols0 (columns (var_df st)) ->
    untouched done cols0 (columns (var_df st)) ->
    m st = (Raise e, st') ->
    exists n g,
      nth_error todo n = Some g
      /\ cause cols0 e g
      /\ converted (converted_by n todo ++ done) cols0
           (columns (var_df st'))
      /\ untouched (converted_by n todo ++ done) cols0
           (columns (var_df st'))
      /\ index (var_df st') = index (var_df st)
      /\ stdout st' = stdout st.

End Frames.

(** ** Lines of a text file

    The pieces of the text between line feeds; a line feed at the very end
    closes the last line and does not open another one.  The first line of
    a CSV file is its header row, the lines below it are its data rows. *)

Definition LF : ascii := "010"%char.

Fixpoint split_on (sep : ascii) (s : string) : list string :=
  match s with
  | EmptyString => [EmptyString]
  | String c s' =>
      if Ascii.eqb c sep then EmptyString :: split_on sep s'
      else match split_on sep s' with
           | piece :: rest => String c piece :: rest
           | [] => [String c EmptyString]
           end
  end.

Definition text_lines (text : string) : list string :=
  match rev (split_on LF text) with
  | EmptyString :: r => rev r
  | _ => split_on LF text
  end.

Definition data_line_count (text : string) : nat :=
  List.length (tl (text_lines text)).

(** ** Comma-separated text

    The header names of a file, its records (the non-empty lines below the
    header row, cut at the commas) and the fields under a header name. *)

Definition fields (line : string) : list string := split_on ","%char line.

Definition nonblank (line : string) : bool := negb (PyStr.is_empty line).

Definition header_names (text : string) : list string :=
  match text_lines text with
  | [] => []
  | h :: _ => fields h
  end.

Definition records (text : string) : list (list string) :=
  map fields (filter nonblank (tl (text_lines text))).

(** The [i]-th field of every record; a record that is too short has the
    empty field there. *)
Definition raw_cell (rows : list (list string)) (i : nat) : list string :=
  map (fun r => nth i r EmptyString) rows.

(** The place of the first name [k] in a list of names. *)
Fixpoint position (k : string) (names : list string) : option nat :=
  match names with
  | [] => None
  | n :: names' =>
      if String.eqb n k then Some 0 else option_map S (position k names')
  end.

(** The fields of the file under the header name [k], one per record. *)
Definition column_text (text k : string) : option (list string) :=
  option_map (raw_cell (records text)) (position k (header_names text)).

(** Plain text: the part of the CSV format in which a line of the file is a
    row of the table and a comma is a field separator, whatever else the
    parser is able to read.  Every character is a printable ASCII character
    other than the double quote (so there is no quoting and no carriage
    return), the header line is not empty, and no line starts with a
    blank. *)
Definition printable (c : ascii) : bool :=
  let n := nat_of_ascii c in
  ((32 <=? n) && (n <=? 126) && negb (n =? 34))%nat.

Definition plain_line (l : string) : bool :=
  forallb printable (list_ascii_of_string l) && negb (prefix " " l).

Definition plain_lines (text : string) : bool :=
  match text_lines text with
  | [] => false
  | h :: rest => nonblank h && forallb plain_line (h :: rest)
  end.

Fixpoint distinct (l : list string) : bool :=
  match l with
  | [] => true
  | k :: l' => negb (existsb (String.eqb k) l') && distinct l'
  end.

(** The header names are not empty and differ from each other, and every
    record has one field per header name. *)
Definition rectangular (text : string) : bool :=
  let names := header_names text in
  forallb nonblank names && distinct names
  && forallb (fun r => (List.length r =? List.length names)%nat)
       (records text).

Definition plain (text : string) : bool :=
  plain_lines text && rectangular text.

(** ** Literals: the value a field denotes *)

Definition digit_of (c : ascii) : option Z :=
  let n := nat_of_ascii c in
  if ((48 <=? n) && (n <=? 57))%nat then Some (Z.of_nat n - 48)%Z else None.

Definition is_digit (c : ascii) : bool :=
  match digit_of c with Some _ => true | None => false end.

(** The value of a non-empty string of decimal digits. *)
Fixpoint digits_acc (s : string) (acc : Z) : option Z :=
  match s with
  | EmptyString => Some acc
  | String c s' =>
      match digit_of c with
      | Some d => digits_acc s' (acc * 10 + d)%Z
      | None => None
      end
  end.

Definition digits (s : string) : option Z :=
  match s with
  | EmptyString => None
  | _ => digits_acc s 0%Z
  end.

Definition split_sign (s : string) : bool * string :=
  match s with
  | EmptyString => (false, s)
  | String c s' =>
      if Ascii.eqb c "-" then (true, s')
      else if Ascii.eqb c "+" then (false, s')
      else (false, s)
  end.

(** An integer literal: digits after an optional sign. *)
Definition parse_int (s : string) : option Z :=
  let (neg, body) := split_sign s in
  match digits body with
  | Some n => Some (if neg then - n else n)%Z
  | None => None
  end.

Definition in_int64 (z : Z) : bool :=
  ((- 2 ^ 63 <=? z) && (z <? 2 ^ 63))%Z.

Definition in_uint64 (z : Z) : bool :=
  ((0 <=? z) && (z <? 2 ^ 64))%Z.

(** The binary64 float nearest to an integer. *)
Definition f64_of_Z (z : Z) : spec_float := binary_normalize 53 1024 z 0 false.


(** [m / 10^k], rounded once. *)
Definition decimal (m : Z) (k : nat) : spec_float :=
  match k with
  | O => f64_of_Z m
  | S _ => SFdiv 53 1024 (f64_of_Z m) (f64_of_Z (10 ^ Z.of_nat k))
  end.

(** A decimal literal: digits with at most one point among them, after an
    optional sign. *)
Definition parse_float (s : string) : option spec_float :=
  let (neg, body) := split_sign s in
  let mk (m : Z) (k : nat) :=
    Some (if neg then SFopp (decimal m k) else decimal m k) in
  match split_on "."%char body with
  | [whole] =>
      match digits whole with Some m => mk m 0%nat | None => None end
  | [whole; frac] =>
      match digits (whole ++ frac) with
      | Some m =>
          if PyStr.is_empty whole && PyStr.is_empty frac then None
          else mk m (String.length frac)
      | None => None
      end
  | _ => None
  end.

Definition digit_count (s : string) : nat :=
  List.length (filter is_digit (list_ascii_of_string s)).

(** A decimal literal of at most fifteen digits.  Its digits are an integer
    below [2^53] and its scale a power of ten that binary64 holds exactly,
    so the one division of [decimal] gives the binary64 nearest to the
    number written. *)
Definition float_literal (s : string) : option spec_float :=
  if (digit_count s <=? 15)%nat then parse_float s else None.

(** Days from 1970-01-01 to the given day of the proleptic Gregorian
    calendar. *)
Definition days_from_civil (y m d : Z) : Z :=
  let y' := (if m <=? 2 then y - 1 else y)%Z in
  let era := (y' / 400)%Z in
  let yoe := (y' - era * 400)%Z in
  let mp := (if 2 <? m then m - 3 else m + 9)%Z in
  let doy := ((153 * mp + 2) / 5 + d - 1)%Z in
  let doe := (yoe * 365 + yoe / 4 - yoe / 100 + doy)%Z in
  (era * 146097 + doe - 719468)%Z.

Definition is_leap (y : Z) : bool :=
  ((y mod 4 =? 0) && (negb (y mod 100 =? 0) || (y mod 400 =? 0)))%Z.

Definition days_in_month (y m : Z) : Z :=
  (if m =? 2 then (if is_leap y then 29 else 28)
   else if (m =? 4) || (m =? 6) || (m =? 9) || (m =? 11) then 30
   else 31)%Z.

(** ["YYYY-MM-DD HH:MM:SS"], a second of the calendar, as nanoseconds since
    the epoch. *)
Definition civil_timestamp (s : string) : option Z :=
  let field i n := digits (substring i n s) in
  let sep i c := String.eqb (substring i 1 s) c in
  match field 0 4, field 5 2, field 8 2, field 11 2, field 14 2, field 17 2
  with
  | Some y, Some m, Some d, Some hh, Some mm, Some ss =>
      let shape :=
        (String.length s =? 19)%nat
        && sep 4 "-" && sep 7 "-" && sep 10 " " && sep 13 ":" && sep 16 ":" in
      let range :=
        ((1 <=? m) && (m <=? 12) && (1 <=? d) && (d <=? days_in_month y m)
         && (hh <? 24) && (mm <? 60) && (ss <? 60))%Z in
      if shape && range
      then Some ((((days_from_civil y m d * 24 + hh) * 60 + mm) * 60 + ss)
                 * 1000000000)%Z
      else None
  | _, _, _, _, _, _ => None
  end.

(** A timestamp literal: a second of the calendar that 64 bits of
    nanoseconds can hold (the years 1678 to 2261 in full). *)
Definition parse_timestamp (s : string) : option Z :=
  match civil_timestamp s with
  | Some ns => if in_int64 ns then Some ns else None
  | None => None
  end.

(** The two flags of [store_and_fwd_flag]. *)
Definition flag (s : string) : bool := String.eqb s "N" || String.eqb s "Y".

(** A field that is text and nothing else: a timestamp literal or a
    flag. *)
Definition text_literal (s : string) : bool :=
  match parse_timestamp s with
  | Some _ => true
  | None => flag s
  end.

Definition all_some {A} (l : list (option A)) : option (list A) :=
  fold_right (fun o acc =>
                match o, acc with
                | Some a, Some r => Some (a :: r)
                | _, _ => None
                end) (Some []) l.



(** ** What pandas does with plain text

    [pd.read_csv] with its default options, on plain text: the header line
    gives the column names, every non-empty line below it is one row, and a
    column is read as follows.  When every field is an integer literal
    within 64 bits, the column holds those integers.  When every field is a
    decimal literal of at most fifteen digits and not all of them are
    integer literals, it holds the nearest floats.  When every field is a
    timestamp literal or a flag, it holds the fields themselves, as
    strings.  Nothing is said about other columns (missing-value markers,
    booleans, longer numbers, exponents and so on). *)

Definition reads (raw : list string) (cells : list cell) : Prop :=
  (forall zs,
      all_some (map parse_int raw) = Some zs ->
      forallb in_int64 zs = true ->
      cells = map Int zs)
  /\ (forall xs,
        all_some (map parse_int raw) = None ->
        all_some (map float_literal raw) = Some xs ->
        cells = map Float xs)
  /\ (forallb text_literal raw = true -> cells = map Str raw).

Class CsvLaws (P : Pandas) : Prop :=
  { read_csv_plain :
      forall text, plain text = true -> exists d, read_csv_text text = Ok d;
    read_csv_rows :
      forall text d,
        plain_lines text = true ->
        read_csv_text text = Ok d ->
        index d = List.length (records text);
    read_csv_names :
      forall text d,
        plain text = true ->
        read_csv_text text = Ok d ->
        map fst (columns d) = header_names text;
    read_csv_column :
      forall text d k raw,
        plain text = true ->
        read_csv_text text = Ok d ->
        column_text text k = Some raw ->
        exists s, lookup k (columns d) = Some s /\ reads raw (values s) }.


(** ** MiniPandas: an executable instance of the interface

    A column is a type tag and its cells.  The parser reads comma-separated
    text: a carriage return before a line feed belongs to the line end,
    empty lines are skipped, the usual missing-value markers are read as
    missing, and a column is inferred to be [int64], [uint64], [float64] or
    left a column of strings.  Conversions go cell by cell.
    [astype('int64')] cuts the fraction of a float and wraps an unsigned
    integer around, without raising, as numpy does; a float beyond 64 bits
    becomes the least integer.

    Known limits, all outside plain text and the literals above: quoted
    fields, a carriage return alone as a line end and lines of blanks only
    are not recognised; numbers with an exponent, with blanks around them
    or written [inf], and the words [True] and [False], are read as
    strings; a decimal literal of more than fifteen digits is rounded
    correctly, where pandas may be one unit in the last place off;
    [to_datetime] reads no other form than [YYYY-MM-DD HH:MM:SS], and the
    texts of its exceptions are not those of pandas; the [KeyError]
    for a list of names none of which is a column shows the list on one
    line; [memory_usage] does not count the categories of a categorical
    column. *)

Module MiniPandas.

Record series : Type := { s_dtype : dtype; s_cells : list cell }.

Definition nan : cell := Float S754_nan.

(** The integer part of a finite float. *)
Definition trunc_float (x : spec_float) : option Z :=
  match x with
  | S754_zero _ => Some 0%Z
  | S754_finite neg m e =>
      let mag := match e with
                 | Zneg p => (Zpos m / 2 ^ Zpos p)%Z
                 | _ => (Zpos m * 2 ^ e)%Z
                 end in
      Some (if neg then - mag else mag)%Z
  | _ => None
  end.

(** A 64-bit pattern read as a signed integer. *)
Definition wrap64 (z : Z) : Z := ((z + 2 ^ 63) mod 2 ^ 64 - 2 ^ 63)%Z.

Definition value_error (msg : string) : exn := Exn ValueError msg.

Definition cell_to_datetime (c : cell) : result cell :=
  match c with
  | Str s =>
      match parse_timestamp s with
      | Some ns => Ok (Timestamp ns)
      | None =>
          match civil_timestamp s with
          | Some _ =>
              Raise (value_error ("Out of bounds nanosecond timestamp: " ++ s))
          | None =>
              Raise (value_error
                       ("Unknown datetime string format, unable to parse: "
                        ++ s))
          end
      end
  | Int z => Ok (Timestamp z)
  | Float x =>
      match trunc_float x with
      | Some z => Ok (Timestamp z)
      | None => Ok NaT
      end
  | Timestamp ns => Ok (Timestamp ns)
  | NaT => Ok NaT
  end.

Definition cell_to_int64 (c : cell) : result cell :=
  match c with
  | Str s =>
      match parse_int s with
      | Some z =>
          if in_int64 z then Ok (Int z)
          else Raise (Exn OverflowError
                        "Python int too large to convert to C long")
      | None =>
          Raise (value_error ("invalid literal for int() with base 10: '" ++ s ++ "'"))
      end
  | Int z => Ok (Int (wrap64 z))
  | Float x =>
      match trunc_float x with
      | Some z => Ok (Int (if in_int64 z then z else - 2 ^ 63)%Z)
      | None =>
          Raise (value_error "Cannot convert non-finite values (NA or inf) to integer")
      end
  | Timestamp ns => Ok (Int (wrap64 ns))
  | NaT => Raise (value_error "Cannot convert NaT values to integer")
  end.

(** [astype('uint64')], which the loader never asks for. *)
Definition cell_to_uint64 (c : cell) : result cell :=
  match c with
  | Str s =>
      match parse_int s with
      | Some z =>
          if in_uint64 z then Ok (Int z)
          else Raise (Exn OverflowError
                        "Python int too large to convert to C long")
      | None =>
          Raise (value_error ("invalid literal for int() with base 10: '" ++ s ++ "'"))
      end
  | Int z => Ok (Int (z mod 2 ^ 64)%Z)
  | Float x =>
      match trunc_float x with
      | Some z => Ok (Int (z mod 2 ^ 64)%Z)
      | None =>
          Raise (value_error "Cannot convert non-finite values (NA or inf) to integer")
      end
  | Timestamp ns => Ok (Int (ns mod 2 ^ 64)%Z)
  | NaT => Raise (value_error "Cannot convert NaT values to integer")
  end.

Definition cell_to_float64 (c : cell) : result cell :=
  match c with
  | Str s =>
      match parse_float s with
      | Some x => Ok (Float x)
      | None =>
          Raise (value_error ("could not convert string to float: '" ++ s ++ "'"))
      end
  | Int z => Ok (Float (f64_of_Z z))
  | Float x => Ok (Float x)
  | Timestamp _ | NaT =>
      Raise (Exn TypeError "Cannot cast DatetimeArray to dtype float64")
  end.

Fixpoint map_result {A B} (f : A -> result B) (l : list A) : result (list B) :=
  match l with
  | [] => Ok []
  | a :: l' =>
      match f a with
      | Raise e => Raise e
      | Ok b =>
          match map_result f l' with
          | Ok r => Ok (b :: r)
          | Raise e => Raise e
          end
      end
  end.

Definition convert (t : dtype) (f : cell -> result cell) (s : series)
  : result series :=
  match map_result f (s_cells s) with
  | Ok cells => Ok {| s_dtype := t; s_cells := cells |}
  | Raise e => Raise e
  end.

Definition mini_to_datetime (s : series) : result series :=
  convert datetime64 cell_to_datetime s.

Definition mini_astype (t : dtype) (s : series) : result series :=
  match t with
  | int64 => convert int64 cell_to_int64 s
  | uint64 => convert uint64 cell_to_uint64 s
  | float64 => convert float64 cell_to_float64 s
  | datetime64 => mini_to_datetime s
  | object_ | category => Ok {| s_dtype := t; s_cells := s_cells s |}
  end.

(** *** The parser *)

Definition CR : ascii := "013"%char.

(** A line without the carriage return at its end. *)
Fixpoint strip_cr (l : string) : string :=
  match l with
  | EmptyString => EmptyString
  | String c l' =>
      match l' with
      | EmptyString => if Ascii.eqb c CR then EmptyString else l
      | String _ _ => String c (strip_cr l')
      end
  end.

(** The fields that [pd.read_csv] reads as a missing value. *)
Definition na_values : list string :=
  [EmptyString; "#N/A"; "#N/A N/A"; "#NA"; "-1.#IND"; "-1.#QNAN"; "-NaN";
   "-nan"; "1.#IND"; "1.#QNAN"; "<NA>"; "N/A"; "NA"; "NULL"; "NaN"; "None";
   "n/a"; "nan"; "null"].

Definition is_na (s : string) : bool := existsb (String.eqb s) na_values.

Definition float_cell (s : string) : option cell :=
  if is_na s then Some nan else option_map Float (parse_float s).

Definition str_cell (s : string) : cell :=
  if is_na s then nan else Str s.

(** Type inference for one column of raw fields.  A column without a row
    is a column of strings.  Integer literals make an [int64] column when
    they all fit, a [uint64] column when none is negative and they fit in
    64 unsigned bits, and stay strings otherwise. *)
Definition infer (raw : list string) : series :=
  match raw with
  | [] => {| s_dtype := object_; s_cells := [] |}
  | _ :: _ =>
      match all_some (map parse_int raw) with
      | Some zs =>
          if forallb in_int64 zs
          then {| s_dtype := int64; s_cells := map Int zs |}
          else if forallb in_uint64 zs
          then {| s_dtype := uint64; s_cells := map Int zs |}
          else {| s_dtype := object_; s_cells := map Str raw |}
      | None =>
          match all_some (map float_cell raw) with
          | Some cells => {| s_dtype := float64; s_cells := cells |}
          | None => {| s_dtype := object_; s_cells := map str_cell raw |}
          end
      end
  end.

(** The table of a header line and the lines of data below it. *)
Definition table (header : string) (data : list string)
  : result (DataFrame series) :=
  let names := fields header in
  let rows := map fields data in
  if forallb (fun r => (List.length r <=? List.length names)%nat) rows then
    Ok {| index := List.length rows;
          columns :=
            map (fun i => (nth i names EmptyString, infer (raw_cell rows i)))
                (seq 0 (List.length names)) |}
  else Raise (Exn ParserError "Error tokenizing data").

Definition mini_read_csv (text : string) : result (DataFrame series) :=
  match filter nonblank (map strip_cr (text_lines text)) with
  | [] => Raise (value_error "No columns to parse from file")
  | header :: data => table header data
  end.

(** Shallow memory usage: 132 bytes for the row index, eight bytes per
    cell, one byte per cell of a categorical column. *)
Definition mini_memory (d : DataFrame series) : N :=
  fold_left
    (fun acc c =>
       let n := N.of_nat (List.length (s_cells (snd c))) in
       match s_dtype (snd c) with
       | category => acc + n
       | _ => acc + 8 * n
       end)%N
    (columns d) 132%N.

(** *** The [KeyError] of [df[ks]] *)

Fixpoint join (sep : string) (l : list string) : string :=
  match l with
  | [] => EmptyString
  | x :: l' =>
      match l' with
      | [] => x
      | _ :: _ => x ++ sep ++ join sep l'
      end
  end.

(** [repr] of a list of strings without quotes or backslashes in them. *)
Definition py_list (l : list string) : string :=
  "[" ++ join ", " (map (fun x => "'" ++ x ++ "'") l) ++ "]".

Definition double_quote : string := String "034"%char EmptyString.

(** [str(e)] of a [KeyError] is the [repr] of its message; a message with
    single quotes in it is shown between double quotes. *)
Definition mini_not_in_index (ks absent : list string) : exn :=
  let all_absent := forallb (fun k => existsb (String.eqb k) absent) ks in
  let msg :=
    if all_absent
    then "None of [Index(" ++ py_list ks
         ++ ", dtype='object')] are in the [columns]"
    else py_list absent ++ " not in index" in
  Exn KeyError (double_quote ++ msg ++ double_quote).

Definition mini : Pandas :=
  {| Series := series;
     dtype_of := s_dtype;
     values := s_cells;
     to_datetime := mini_to_datetime;
     astype := mini_astype;
     read_csv_text := mini_read_csv;
     memory_usage_sum := mini_memory;
     not_in_index := mini_not_in_index |}.

(** *** Sample directories *)

Definition no_such_file (path : string) : exn :=
  Exn FileNotFoundError
    ("[Errno 2] No such file or directory: '" ++ path ++ "'").

Fixpoint file_text (files : list (string * string)) (path : string)
  : result string :=
  match files with
  | [] => Raise (no_such_file path)
  | (name, text) :: files' =>
      if String.eqb (os_path_join dataset_dir name) path then Ok text
      else file_text files' path
  end.

(** A world whose dataset directory lists [listing] and holds [files]. *)
Definition world (listing : list string) (files : list (string * string))
  : World :=
  {| os_listdir := fun dir =>
       if String.eqb dir dataset_dir then Ok listing
       else Raise (no_such_file dir);
     read_text := file_text files |}.

(** A world without the dataset directory. *)
Definition world_no_directory : World :=
  {| os_listdir := fun dir => Raise (no_such_file dir);
     read_text := fun path => Raise (no_such_file path) |}.

Definition nl : string := String LF EmptyString.

Definition header : string :=
  "VendorID,tpep_pickup_datetime,tpep_dropoff_datetime,passenger_count,"
  ++ "trip_distance,RatecodeID,store_and_fwd_flag,PULocationID,DOLocationID,"
  ++ "payment_type,fare_amount,extra,mta_tax,tip_amount,tolls_amount,"
  ++ "improvement_surcharge,total_amount,congestion_surcharge,Airport_fee,"
  ++ "trip_duration,fare_per_mile,pickup_zone".

Definition row1 : string :=
  "2,2024-01-05 10:15:00,2024-01-05 10:32:30,1,2.5,1,N,186,79,1,"
  ++ "17.7,1.0,0.5,3.0,0.0,1.0,25.7,2.5,0.0,17.5,7.08,Midtown".

Definition row2 : string :=
  "1,2024-01-05 11:00:00,2024-01-05 11:10:00,2,1.2,1,N,140,236,2,"
  ++ "10.0,3.5,0.5,0.0,0.0,1.0,15.0,2.5,0.0,10.0,8.33,Upper East Side".

(** [row2] with the text [abc] as its [fare_amount]. *)
Definition row2_bad : string :=
  "1,2024-01-05 11:00:00,2024-01-05 11:10:00,2,1.2,1,N,140,236,2,"
  ++ "abc,3.5,0.5,0.0,0.0,1.0,15.0,2.5,0.0,10.0,8.33,Upper East Side".


(** [row2] with one passenger and a half. *)
Definition row2_half_passenger : string :=
  "1,2024-01-05 11:00:00,2024-01-05 11:10:00,1.5,1.2,1,N,140,236,2,"
  ++ "10.0,3.5,0.5,0.0,0.0,1.0,15.0,2.5,0.0,10.0,8.33,Upper East Side".

Definition good_csv : string := header ++ nl ++ row1 ++ nl ++ row2 ++ nl.
Definition bad_csv : string := header ++ nl ++ row1 ++ nl ++ row2_bad ++ nl.

(** [good_csv] with an empty line between its two rows. *)
Definition blank_line_csv : string :=
  header ++ nl ++ row1 ++ nl ++ nl ++ row2 ++ nl.


Definition half_passenger_csv : string :=
  header ++ nl ++ row1 ++ nl ++ row2_half_passenger ++ nl.

Definition cleaned_name : string := "yellow_tripdata_2024-01_cleaned.csv".

Definition world_good : World :=
  world ["README.md"; "yellow_tripdata_2024-01.csv"; cleaned_name]
        [(cleaned_name, good_csv)].

Definition world_bad_fare : World :=
  world ["yellow_tripdata_2024-01.csv"; cleaned_name]
        [(cleaned_name, bad_csv)].

Definition world_blank_line : World :=
  world [cleaned_name] [(cleaned_name, blank_line_csv)].


Definition world_half_passenger : World :=
  world [cleaned_name] [(cleaned_name, half_passenger_csv)].

Definition world_no_cleaned : World :=
  world ["README.md"; "yellow_tripdata_2024-01.csv";
         "trips_Cleaned.CSV"; "trips_cleaned.csv.bak"]
        [].

(** The parsed sample tables. *)
Definition empty_frame : DataFrame series := {| index := 0; columns := [] |}.

Definition parsed_good : DataFrame series :=
  Eval vm_compute in
    match mini_read_csv good_csv with Ok d => d | Raise _ => empty_frame end.

Definition parsed_bad : DataFrame series :=
  Eval vm_compute in
    match mini_read_csv bad_csv with Ok d => d | Raise _ => empty_frame end.


Definition parsed_half_passenger : DataFrame series :=
  Eval vm_compute in
    match mini_read_csv half_passenger_csv with
    | Ok d => d
    | Raise _ => empty_frame
    end.

(** [parsed_good] without its first column, [VendorID]. *)
Definition parsed_without_vendor : DataFrame series :=
  {| index := index parsed_good; columns := tl (columns parsed_good) |}.

(** Two matching files; the first one listed is not a CSV table at all. *)
Definition world_first_unreadable : World :=
  world ["a_cleaned.csv"; "b_cleaned.csv"]
        [("a_cleaned.csv", EmptyString); ("b_cleaned.csv", good_csv)].

(** What the call on [world_good] returns and prints. *)
Definition returned_good : DataFrame series :=
  Eval vm_compute in
    match fst (load (P := mini) world_good) with
    | Ok d => d
    | Raise _ => empty_frame
    end.

Definition printed_good : list string :=
  Eval vm_compute in snd (load (P := mini) world_good).

(** Two matching files with different tables. *)
Definition short_csv : string := header ++ nl ++ row1 ++ nl.

Definition two_tables : list (string * string) :=
  [("a_cleaned.csv", short_csv); ("b_cleaned.csv", good_csv)].

Definition world_a_then_b : World :=
  world ["a_cleaned.csv"; "b_cleaned.csv"] two_tables.

Definition world_b_then_a : World :=
  world ["b_cleaned.csv"; "a_cleaned.csv"] two_tables.

End MiniPandas.

(** * Properties *)

(** ** Strings *)

Lemma length_app (a b : string) :
  String.length (a ++ b) = String.length a + String.length b.
Proof. induction a as [|c a IH]; simpl; [reflexivity | now rewrite IH]. Qed.

Lemma substring_full (s : string) : substring 0 (String.length s) s = s.
Proof. induction s as [|c s IH]; simpl; [reflexivity | now rewrite IH]. Qed.

Lemma substring_skip (a b : string) :
  substring (String.length a) (String.length b) (a ++ b) = b.
Proof. induction a as [|c a IH]; simpl; [apply substring_full | exact IH]. Qed.

(** A string is what comes before position [k] followed by the rest. *)
Lemma substring_cut (s : string) :
  forall k, k <= String.length s ->
    s = substring 0 k s ++ substring k (String.length s - k) s.
Proof.
  induction s as [|c s IH]; intros [|k] Hk; simpl in *.
  - reflexivity.
  - lia.
  - now rewrite substring_full.
  - f_equal. apply IH. lia.
Qed.

(** [endswith] holds exactly of the strings that are some stem followed by
    the suffix. *)
Lemma endswith_iff (s suffix : string) :
  PyStr.endswith s suffix = true <-> exists stem, s = stem ++ suffix.
Proof.
  unfold PyStr.endswith. rewrite andb_true_iff, Nat.leb_le, String.eqb_eq.
  split.
  - intros [Hle Hsub].
    exists (substring 0 (String.length s - String.length suffix) s).
    pose proof (substring_cut s (k := String.length s - String.length suffix))
      as Hcut.
    replace (String.length s - (String.length s - String.length suffix))
      with (String.length suffix) in Hcut by lia.
    rewrite Hsub in Hcut. apply Hcut. lia.
  - intros [stem ->]. rewrite length_app. split; [lia|].
    replace (String.length stem + String.length suffix - String.length suffix)
      with (String.length stem) by lia.
    apply substring_skip.
Qed.

(** C9.  The candidate list holds exactly the directory entries whose name
    is some stem followed by [_cleaned.csv], compared character by
    character: a name that differs in case, or that carries the suffix
    somewhere before its end, is not a candidate. *)
Theorem C9_candidates_end_with_suffix :
  (forall files f,
      In f (cleaned_files files)
      <-> In f files /\ exists stem, f = stem ++ "_cleaned.csv")
  /\ (forall files, cleaned_files ("trips_Cleaned.CSV" :: files)
                    = cleaned_files files)
  /\ (forall files, cleaned_files ("trips_cleaned.csv.bak" :: files)
                    = cleaned_files files)
  /\ (forall files, cleaned_files ("_cleaned.csv_trips" :: files)
                    = cleaned_files files).
Proof.
  split; [|repeat split; reflexivity].
  intros files f. unfold cleaned_files.
  rewrite filter_In, endswith_iff. reflexivity.
Qed.

(** ** The four ways a call can go *)

Section Loader.

Context {P : Pandas}.

Local Abbreviation Frame := (DataFrame Series).

(** The listing fails: the exception is printed and [df] is unbound at the
    [return]. *)
Lemma load_listing_raises (w : World) (e : exn) :
  os_listdir w dataset_dir = Raise e ->
  load w = (Raise (unbound_local "df"), [error_line e]).
Proof.
  intros H. unfold load, get_cleaned_df, try_except, try_body, bind, lift.
  rewrite H. reflexivity.
Qed.

(** No entry matches. *)
Lemma load_none_matches (w : World) (files : list string) :
  os_listdir w dataset_dir = Ok files ->
  cleaned_files files = [] ->
  load w = (Raise (unbound_local "df"), [error_line not_found]).
Proof.
  intros H Hc. unfold load, get_cleaned_df, try_except, try_body, bind, lift.
  rewrite H, Hc. reflexivity.
Qed.

(** Some entry matches: the first one is read; if it parses, [_set_types]
    runs on the parsed frame, and whatever state it leaves the frame in is
    what the call returns. *)
Lemma load_first_match (w : World) (files : list string) (f : string) :
  os_listdir w dataset_dir = Ok files ->
  hd_error (cleaned_files files) = Some f ->
  load w =
    match pd_read_csv w (os_path_join dataset_dir f) with
    | Raise e => (Raise (unbound_local "df"), [loading_line f; error_line e])
    | Ok d0 =>
        let (r, st) :=
          _set_types {| var_df := d0;
                        stdout := [loading_line f; loaded_line d0] |} in
        (Ok (var_df st),
         match r with
         | Ok _ => stdout st
         | Raise e => (stdout st ++ [error_line e])%list
         end)
    end.
Proof.
  intros H Hc. unfold load, get_cleaned_df, try_except, try_body, bind, lift.
  rewrite H. destruct (cleaned_files files) as [|f0 rest]; [discriminate|].
  injection Hc as ->. cbn [first ret raise print var_df stdout app].
  destruct (pd_read_csv w (os_path_join dataset_dir f)) as [d0|e];
    [|reflexivity].
  cbn [store_df load_df call_with_df bind var_df stdout app].
  unfold call_with_df, bind, load_df. cbn [var_df stdout].
  destruct (_set_types _) as [[[]|e] st]; reflexivity.
Qed.

End Loader.

(** ** Column lists *)

Section Columns.

Context {P : Pandas}.

Local Abbreviation Cols := (list (string * Series)).

Lemma lookup_replace (k : string) (s : Series) (cols : Cols) (k' : string) :
  lookup k' (replace k s cols)
  = if String.eqb k k'
    then match lookup k cols with Some _ => Some s | None => None end
    else lookup k' cols.
Proof.
  induction cols as [|[n s0] cols IH]; simpl.
  - now destruct (String.eqb k k').
  - destruct (String.eqb n k) eqn:E; simpl.
    + apply String.eqb_eq in E. subst n.
      now destruct (String.eqb k k').
    + destruct (String.eqb n k') eqn:E'; [|exact IH].
      destruct (String.eqb k k') eqn:E''; [|reflexivity].
      apply String.eqb_eq in E', E''. subst.
      rewrite String.eqb_refl in E. discriminate.
Qed.

Lemma lookup_append (k : string) (s : Series) (cols : Cols) (k' : string) :
  lookup k' (cols ++ [(k, s)])
  = match lookup k' cols with
    | Some x => Some x
    | None => if String.eqb k k' then Some s else None
    end.
Proof.
  induction cols as [|[n s0] cols IH]; simpl; [reflexivity|].
  now destruct (String.eqb n k').
Qed.

(** After [df[k] = s], [df[k]] is [s] and every other column is as before. *)
Lemma lookup_assign (k : string) (s : Series) (cols : Cols) (k' : string) :
  lookup k' (assign k s cols)
  = if String.eqb k k' then Some s else lookup k' cols.
Proof.
  unfold assign. destruct (lookup k cols) eqn:E.
  - rewrite lookup_replace, E. reflexivity.
  - rewrite lookup_append. destruct (String.eqb k k') eqn:E'.
    + apply String.eqb_eq in E'. subst. now rewrite E.
    + now destruct (lookup k' cols).
Qed.

Lemma lookup_absent (k : string) (cols : Cols) :
  ~ In k (map fst cols) -> lookup k cols = None.
Proof.
  induction cols as [|[n s] cols IH]; simpl; intros H; [reflexivity|].
  destruct (String.eqb n k) eqn:E.
  - apply String.eqb_eq in E. tauto.
  - apply IH. tauto.
Qed.

Lemma lookup_present (k : string) (s : Series) (cols : Cols) :
  NoDup (map fst cols) -> In (k, s) cols -> lookup k cols = Some s.
Proof.
  induction cols as [|[n s0] cols IH]; simpl; intros Hnd Hin; [tauto|].
  inversion Hnd as [|? ? Hn Hnd']; subst.
  destruct Hin as [Heq|Hin].
  - injection Heq as -> ->. now rewrite String.eqb_refl.
  - destruct (String.eqb n k) eqn:E; [|now apply IH].
    apply String.eqb_eq in E. subst n.
    exfalso. apply Hn. apply (in_map fst) in Hin. exact Hin.
Qed.

Lemma same_columns_refl (cols : Cols) : same_columns cols cols.
Proof. induction cols; constructor; [split; reflexivity | assumption]. Qed.

Lemma same_columns_trans (a b c : Cols) :
  same_columns a b -> same_columns b c -> same_columns a c.
Proof.
  intros Hab. revert c. induction Hab as [|x y a b [Hn Hv] Hab IH];
    intros c Hbc; inversion Hbc as [|? z ? c' [Hn' Hv'] Hbc']; subst;
    constructor.
  - split; [congruence|]. intros Hx. rewrite Hv' by now rewrite Hn.
    now apply Hv.
  - now apply IH.
Qed.

Lemma replace_same_columns (k : string) (s : Series) (cols : Cols) :
  In k declared -> same_columns cols (replace k s cols).
Proof.
  intros Hk. induction cols as [|[n s0] cols IH]; simpl; [constructor|].
  destruct (String.eqb n k) eqn:E.
  - apply String.eqb_eq in E. subst n. constructor.
    + split; [reflexivity|]. simpl. tauto.
    + apply same_columns_refl.
  - constructor; [split; reflexivity | exact IH].
Qed.

Lemma assign_same_columns (k : string) (s : Series) (cols : Cols) :
  In k declared -> lookup k cols <> None ->
  same_columns cols (assign k s cols).
Proof.
  intros Hk Hp. unfold assign. destruct (lookup k cols); [|tauto].
  now apply replace_same_columns.
Qed.

Lemma select_from_present (err : exn) (ks : list string) (cols sel : Cols) :
  select_from err ks cols = Ok sel ->
  map fst sel = ks /\ forall k, In k ks -> lookup k cols <> None.
Proof.
  revert sel. induction ks as [|k ks IH]; simpl; intros sel H.
  - injection H as <-. split; [reflexivity | tauto].
  - destruct (lookup k cols) as [s|] eqn:E; [|discriminate].
    destruct (select_from err ks cols) as [sel'|] eqn:E'; [|discriminate].
    injection H as <-. destruct (IH _ eq_refl) as [Hn Hp]. split.
    + simpl. now rewrite Hn.
    + intros k' [<-|Hin]; [congruence | now apply Hp].
Qed.

Lemma select_present (ks : list string) (cols sel : Cols) :
  select ks cols = Ok sel ->
  map fst sel = ks /\ forall k, In k ks -> lookup k cols <> None.
Proof. apply select_from_present. Qed.

Lemma assign_zip_same_columns (vcols value : Cols) :
  forall (ks : list string) (cols cols' : Cols),
    incl ks declared ->
    (forall k, In k ks -> lookup k cols <> None) ->
    assign_zip ks vcols value cols = Ok cols' ->
    same_columns cols cols'.
Proof.
  induction vcols as [|[k2 s2] vcols IH]; intros [|k1 ks] cols cols' Hd Hp H;
    simpl in H; try (injection H as <-; apply same_columns_refl).
  destruct (lookup k2 value) as [s|]; [|discriminate].
  apply same_columns_trans with (assign k1 s cols).
  - apply assign_same_columns; [apply Hd | apply Hp]; now left.
  - apply IH with ks; [| |exact H].
    + intros k Hk. apply Hd. now right.
    + intros k Hk. rewrite lookup_assign.
      destruct (String.eqb k1 k); [discriminate|]. apply Hp. now right.
Qed.

End Columns.

(** ** [_set_types] keeps the frame *)

Section Keeps.

Context {P : Pandas}.

Local Abbreviation Frame := (DataFrame Series).

Lemma same_frame_refl (d : Frame) : same_frame d d.
Proof. split; [reflexivity | apply same_columns_refl]. Qed.

Lemma same_frame_trans (a b c : Frame) :
  same_frame a b -> same_frame b c -> same_frame a c.
Proof.
  intros [Hi Hc] [Hi' Hc']. split; [congruence|].
  now apply same_columns_trans with (columns b).
Qed.

Lemma declared_In (k : string) :
  existsb (String.eqb k) declared = true -> In k declared.
Proof.
  intros H. apply existsb_exists in H. destruct H as [k' [Hin Heq]].
  apply String.eqb_eq in Heq. now subst.
Qed.

Lemma declared_incl (ks : list string) :
  forallb (fun k => existsb (String.eqb k) declared) ks = true ->
  incl ks declared.
Proof.
  intros H k Hk. rewrite forallb_forall in H. apply declared_In. now apply H.
Qed.

Lemma extends_refl (st : Env Frame) : extends st st.
Proof.
  split; [apply same_frame_refl|]. exists []. now rewrite app_nil_r.
Qed.

Lemma extends_trans (a b c : Env Frame) :
  extends a b -> extends b c -> extends a c.
Proof.
  intros [Hf [m Hm]] [Hf' [m' Hm']]. split.
  - now apply same_frame_trans with (var_df b).
  - exists (m ++ m')%list. now rewrite Hm', Hm, app_assoc.
Qed.

(** [df[k] = f(df[k])] and then [rest]. *)
Lemma keeps_update {A} (k : string) (f : Series -> result Series)
  (rest : M (Env Frame) A) :
  In k declared -> keeps rest ->
  keeps (v <- (s <- getitem k ;; lift (f s)) ;; setitem k v ;; rest).
Proof.
  intros Hk Hrest st r st'. unfold bind, getitem, lift, setitem.
  destruct (lookup k (columns (var_df st))) as [s|] eqn:E.
  2:{ intros H. injection H as <- <-. apply extends_refl. }
  destruct (f s) as [s'|e].
  2:{ intros H. injection H as <- <-. apply extends_refl. }
  intros H. apply Hrest in H.
  eapply extends_trans; [|exact H]. split; cbn [var_df stdout].
  - split; [reflexivity|]. cbn [columns].
    apply assign_same_columns; [exact Hk | congruence].
  - exists []. now rewrite app_nil_r.
Qed.

(** [df[ks] = df[ks].astype(t)] and then [rest]. *)
Lemma keeps_update_list {A} (ks : list string) (t : dtype)
  (rest : M (Env Frame) A) :
  incl ks declared -> keeps rest ->
  keeps (v <- (sub <- getitem_list ks ;; lift (frame_astype t sub)) ;;
         setitem_list ks v ;; rest).
Proof.
  intros Hks Hrest st r st'.
  unfold bind, getitem_list, lift, frame_astype, setitem_list.
  destruct (select ks (columns (var_df st))) as [sel|e] eqn:E.
  2:{ intros H. injection H as <- <-. apply extends_refl. }
  cbn [columns index].
  destruct (astype_columns t sel) as [conv|e].
  2:{ intros H. injection H as <- <-. apply extends_refl. }
  cbn [columns index].
  destruct (negb _).
  { intros H. injection H as <- <-. apply extends_refl. }
  destruct (assign_zip ks conv conv (columns (var_df st))) as [cols'|e] eqn:Ez.
  2:{ intros H. injection H as <- <-. apply extends_refl. }
  intros H. apply Hrest in H.
  eapply extends_trans; [|exact H]. split; cbn [var_df stdout].
  - split; [reflexivity|]. cbn [columns].
    eapply assign_zip_same_columns; [exact Hks| |exact Ez].
    apply (select_present _ _ E).
  - exists []. now rewrite app_nil_r.
Qed.

Lemma keeps_last_print (line : Env Frame -> string) :
  keeps (fun st => print (line st) st).
Proof.
  intros st r st' H. unfold print in H. injection H as <- <-.
  split; cbn [var_df stdout]; [apply same_frame_refl | eauto].
Qed.

Lemma keeps_print {A} (line : Env Frame -> string) (rest : M (Env Frame) A) :
  keeps rest -> keeps (bind (fun st => print (line st) st) (fun _ => rest)).
Proof.
  intros Hrest st r st'. unfold bind.
  destruct (print (line st) st) as [[[]|e] st1] eqn:E; intros H;
    pose proof (keeps_last_print line E) as H1.
  - apply Hrest in H. now apply extends_trans with st1.
  - injection H as <- <-. exact H1.
Qed.

(** However [_set_types] ends, the frame has the rows and the column names
    it had, in their order, every column outside the type map is the column
    it was, and what had been printed is still there. *)
Lemma set_types_keeps : keeps _set_types.
Proof.
  unfold _set_types.
  apply keeps_update; [now apply declared_In|].
  apply keeps_update; [now apply declared_In|].
  apply keeps_update_list; [now apply declared_incl|].
  apply keeps_update_list; [now apply declared_incl|].
  apply (keeps_update (astype category));
    [now apply declared_In|].
  apply (keeps_print (fun _ => "Type enforcement complete. New Memory Usage:")).
  apply keeps_last_print.
Qed.

End Keeps.

(** ** [_set_types] on a convertible frame *)

Section Completes.

Context {P : Pandas}.

Local Abbreviation Frame := (DataFrame Series).
Local Abbreviation Cols := (list (string * Series)).

(** The three phases of [df[ks] = df[ks].astype(t)]: the selection and the
    conversion go through, and the converted frame has the columns [ks]. *)
Lemma select_from_astype_run (err : exn) (t : dtype) (cols : Cols) :
  forall ks,
    NoDup ks ->
    (forall k, In k ks ->
       exists s s', lookup k cols = Some s /\ astype t s = Ok s') ->
    exists sel conv,
      select_from err ks cols = Ok sel
      /\ astype_columns t sel = Ok conv
      /\ map fst conv = ks
      /\ forall k s, In k ks -> lookup k cols = Some s ->
           exists s', astype t s = Ok s' /\ lookup k conv = Some s'.
Proof.
  induction ks as [|k ks IH]; intros Hnd Hall.
  - exists [], []. repeat split. intros k s [].
  - inversion Hnd as [|? ? Hk Hnd']; subst.
    destruct (Hall k (or_introl eq_refl)) as [s [s' [Hl Ha]]].
    destruct IH as [sel [conv [Hs [Hc [Hn Hv]]]]];
      [exact Hnd' | intros; apply Hall; now right |].
    exists ((k, s) :: sel), ((k, s') :: conv). simpl.
    rewrite Hl, Hs, Ha, Hc, Hn. repeat split.
    intros k0 s0 [<-|Hin] Hl0.
    + rewrite Hl in Hl0. injection Hl0 as <-. exists s'.
      now rewrite String.eqb_refl.
    + destruct (String.eqb k k0) eqn:E.
      * apply String.eqb_eq in E. subst. tauto.
      * now apply Hv.
Qed.

Lemma select_astype_run (t : dtype) (cols : Cols) :
  forall ks,
    NoDup ks ->
    (forall k, In k ks ->
       exists s s', lookup k cols = Some s /\ astype t s = Ok s') ->
    exists sel conv,
      select ks cols = Ok sel
      /\ astype_columns t sel = Ok conv
      /\ map fst conv = ks
      /\ forall k s, In k ks -> lookup k cols = Some s ->
           exists s', astype t s = Ok s' /\ lookup k conv = Some s'.
Proof. intros ks. apply select_from_astype_run. Qed.

(** The assignment loop: afterwards a column of [vcols] is the assigned
    one, any other column is as before. *)
Lemma assign_zip_run (value : Cols) :
  forall (vcols : Cols) (cols : Cols),
    NoDup (map fst vcols) ->
    (forall c, In c vcols -> lookup (fst c) value = Some (snd c)) ->
    exists cols',
      assign_zip (map fst vcols) vcols value cols = Ok cols'
      /\ forall k, lookup k cols'
                   = match lookup k vcols with
                     | Some s => Some s
                     | None => lookup k cols
                     end.
Proof.
  induction vcols as [|[k2 s2] vcols IH]; intros cols Hnd Hval; simpl.
  - exists cols. split; reflexivity.
  - inversion Hnd as [|? ? Hk Hnd']; subst.
    pose proof (Hval (k2, s2) (or_introl eq_refl)) as Hv2.
    cbn [fst snd] in Hv2. rewrite Hv2.
    destruct (IH (assign k2 s2 cols) Hnd') as [cols' [Hrun Hl]].
    { intros c Hc. apply Hval. now right. }
    exists cols'. split; [exact Hrun|].
    intros k. rewrite Hl, lookup_assign.
    destruct (String.eqb k2 k) eqn:E; [|reflexivity].
    apply String.eqb_eq in E. subst k.
    now rewrite (lookup_absent _ _ Hk).
Qed.

Lemma completes_update (cols0 : Cols) (done : list (string * dtype))
  (k : string) (t : dtype) (rest : M (Env Frame) unit) :
  (exists s s', lookup k cols0 = Some s /\ coerce t s = Ok s') ->
  ~ In k (map fst done) ->
  completes cols0 ((k, t) :: done) rest ->
  completes cols0 done
    (v <- (s <- getitem k ;; lift (coerce t s)) ;; setitem k v ;; rest).
Proof.
  intros [s [s' [Hl Hc]]] Hnd Hrest st Hconv Hunt.
  unfold bind, getitem, lift, setitem.
  rewrite (Hunt k Hnd), Hl, Hc. apply Hrest; cbn [var_df columns].
  - intros k0 t0 s0 [Heq|Hin] Hl0.
    + injection Heq as <- <-. rewrite Hl in Hl0. injection Hl0 as <-.
      exists s'. split; [exact Hc|].
      now rewrite lookup_assign, String.eqb_refl.
    + destruct (Hconv k0 t0 s0 Hin Hl0) as [s0' [Hc0 Hl0']].
      exists s0'. split; [exact Hc0|]. rewrite lookup_assign.
      destruct (String.eqb k k0) eqn:E; [|exact Hl0'].
      apply String.eqb_eq in E. subst k0. exfalso. apply Hnd.
      apply (in_map fst) in Hin. exact Hin.
  - intros k0 Hk0. simpl in Hk0. rewrite lookup_assign.
    destruct (String.eqb k k0) eqn:E.
    + apply String.eqb_eq in E. tauto.
    + apply Hunt. tauto.
Qed.

Lemma completes_update_list (cols0 : Cols) (done : list (string * dtype))
  (ks : list string) (t : dtype) (rest : M (Env Frame) unit) :
  (forall s, coerce t s = astype t s) ->
  NoDup ks ->
  (forall k, In k ks ->
     exists s s', lookup k cols0 = Some s /\ coerce t s = Ok s') ->
  (forall k, In k ks -> ~ In k (map fst done)) ->
  completes cols0 (map (fun k => (k, t)) ks ++ done) rest ->
  completes cols0 done
    (v <- (sub <- getitem_list ks ;; lift (frame_astype t sub)) ;;
     setitem_list ks v ;; rest).
Proof.
  intros Hco Hnd Hall Hfresh Hrest st Hconv Hunt.
  destruct (select_astype_run t (columns (var_df st)) Hnd)
    as [sel [conv [Hs [Hc [Hn Hv]]]]].
  { intros k Hk. rewrite (Hunt k (Hfresh k Hk)).
    destruct (Hall k Hk) as [s [s' [Hl Ha]]]. rewrite Hco in Ha. eauto. }
  destruct (assign_zip_run conv conv (columns (var_df st)))
    as [cols' [Hz Hl']].
  { now rewrite Hn. }
  { intros [k s] Hin. apply lookup_present; [now rewrite Hn | exact Hin]. }
  rewrite Hn in Hz.
  unfold bind, getitem_list, lift, frame_astype, setitem_list.
  rewrite Hs. cbn [columns index]. rewrite Hc. cbn [columns index].
  replace (List.length conv) with (List.length ks)
    by (now rewrite <- Hn, length_map).
  rewrite Nat.eqb_refl. cbn [negb]. rewrite Hz.
  apply Hrest; cbn [var_df columns].
  - intros k0 t0 s0 Hin Hl0. rewrite Hl'. apply in_app_or in Hin.
    destruct Hin as [Hin|Hin].
    + apply in_map_iff in Hin. destruct Hin as [k1 [Heq Hk1]].
      injection Heq as -> ->.
      rewrite <- (Hunt k0 (Hfresh k0 Hk1)) in Hl0.
      destruct (Hv k0 s0 Hk1 Hl0) as [s' [Ha Hlc]].
      exists s'. rewrite Hco, Hlc. now split.
    + destruct (Hconv k0 t0 s0 Hin Hl0) as [s0' [Hc0 Hl0']].
      exists s0'. split; [exact Hc0|].
      rewrite lookup_absent; [exact Hl0'|]. rewrite Hn. intros Hk.
      apply (Hfresh k0 Hk). apply (in_map fst) in Hin. exact Hin.
  - intros k0 Hk0. rewrite Hl'. rewrite map_app, in_app_iff in Hk0.
    rewrite map_map in Hk0. cbn [fst] in Hk0. rewrite map_id in Hk0.
    rewrite lookup_absent by (rewrite Hn; tauto).
    apply Hunt. tauto.
Qed.

Lemma completes_prints (cols0 : Cols) (done : list (string * dtype))
  (line : string) (last : Env Frame -> string) :
  incl type_map done ->
  completes cols0 done (print line ;; fun st => print (last st) st).
Proof.
  intros Hincl st Hconv _. unfold bind, print. cbn [var_df stdout].
  eexists. split; [reflexivity|]. cbn [var_df].
  intros k t s Hin. apply Hconv. now apply Hincl.
Qed.

Lemma convertible_In (d : Frame) (k : string) (t : dtype) :
  convertible d = true -> In (k, t) type_map ->
  exists s s', lookup k (columns d) = Some s /\ coerce t s = Ok s'.
Proof.
  unfold convertible. rewrite forallb_forall. intros H Hin.
  specialize (H _ Hin). cbn [fst snd] in H.
  destruct (lookup k (columns d)) as [s|]; [|discriminate].
  destruct (coerce t s) as [s'|] eqn:E; [|discriminate]. eauto.
Qed.

(** On a frame whose declared columns are all present and convertible,
    [_set_types] raises nothing, and afterwards each declared column is the
    conversion of the column it was. *)
Lemma set_types_completes (d0 : Frame) (out : list string) :
  convertible d0 = true ->
  exists st',
    _set_types {| var_df := d0; stdout := out |} = (Ok tt, st')
    /\ converted type_map (columns d0) (columns (var_df st')).
Proof.
  intros Hc.
  assert (Hdt : forall k, In k datetime_features ->
            exists s s', lookup k (columns d0) = Some s
                         /\ coerce datetime64 s = Ok s').
  { intros k Hk. apply convertible_In; [exact Hc|]. unfold type_map.
    apply in_or_app. left. now apply (in_map (fun k => (k, datetime64))). }
  assert (Hint : forall k, In k int_features ->
            exists s s', lookup k (columns d0) = Some s
                         /\ coerce int64 s = Ok s').
  { intros k Hk. apply convertible_In; [exact Hc|]. unfold type_map.
    apply in_or_app. right. apply in_or_app. left.
    now apply (in_map (fun k => (k, int64))). }
  assert (Hfl : forall k, In k float_features ->
            exists s s', lookup k (columns d0) = Some s
                         /\ coerce float64 s = Ok s').
  { intros k Hk. apply convertible_In; [exact Hc|]. unfold type_map.
    apply in_or_app. right. apply in_or_app. right. apply in_or_app. left.
    now apply (in_map (fun k => (k, float64))). }
  assert (Hcat : forall k, In k category_features ->
            exists s s', lookup k (columns d0) = Some s
                         /\ coerce category s = Ok s').
  { intros k Hk. apply convertible_In; [exact Hc|]. unfold type_map.
    apply in_or_app. right. apply in_or_app. right. apply in_or_app. right.
    now apply (in_map (fun k => (k, category))). }
  assert (Hrun : completes (columns d0) [] _set_types).
  { unfold _set_types.
    apply (completes_update (t := datetime64));
      [apply Hdt; simpl; tauto | simpl; tauto |].
    apply (completes_update (t := datetime64));
      [apply Hdt; simpl; tauto | simpl; intuition discriminate |].
    apply completes_update_list.
    - reflexivity.
    - repeat constructor; simpl; intuition discriminate.
    - exact Hint.
    - simpl. intuition (subst; discriminate).
    - apply completes_update_list.
      + reflexivity.
      + repeat constructor; simpl; intuition discriminate.
      + exact Hfl.
      + simpl. intuition (subst; discriminate).
      + apply (completes_update (t := category)).
        * apply Hcat. simpl. tauto.
        * simpl. intuition discriminate.
        * apply completes_prints
            with (last := fun st =>
                    PyStr.format_mb (memory_usage_sum (var_df st)) ++ " MB").
          intros c Hin. unfold type_map in Hin. simpl in Hin. simpl.
          tauto. }
  apply Hrun; cbn [var_df columns].
  - intros k t s [].
  - intros k _. reflexivity.
Qed.

(** ** [_set_types] on a frame that is not convertible *)

Lemma select_from_astype_inv (err : exn) (t : dtype) (cols : Cols) :
  forall ks sel conv,
    select_from err ks cols = Ok sel ->
    astype_columns t sel = Ok conv ->
    map fst conv = ks
    /\ forall k, In k ks ->
         exists s s', lookup k cols = Some s /\ astype t s = Ok s'.
Proof.
  induction ks as [|k ks IH]; simpl; intros sel conv Hs Ha.
  - injection Hs as <-. simpl in Ha. injection Ha as <-.
    split; [reflexivity | intros k []].
  - destruct (lookup k cols) as [s|] eqn:El; [|discriminate].
    destruct (select_from err ks cols) as [sel'|]; [|discriminate].
    injection Hs as <-. simpl in Ha.
    destruct (astype t s) as [s'|] eqn:Et; [|discriminate].
    destruct (astype_columns t sel') as [conv'|] eqn:Ec; [|discriminate].
    injection Ha as <-. destruct (IH sel' conv' eq_refl Ec) as [Hn Hk].
    split; [simpl; now rewrite Hn|].
    intros k0 [<-|Hin]; [eauto | now apply Hk].
Qed.

Lemma select_astype_inv (t : dtype) (cols : Cols) :
  forall ks sel conv,
    select ks cols = Ok sel ->
    astype_columns t sel = Ok conv ->
    map fst conv = ks
    /\ forall k, In k ks ->
         exists s s', lookup k cols = Some s /\ astype t s = Ok s'.
Proof. intros ks. apply select_from_astype_inv. Qed.

Lemma demands_update (cols0 : Cols) (done todo : list (string * dtype))
  (k : string) (t : dtype) (rest : M (Env Frame) unit) :
  ~ In k (map fst done) ->
  demands cols0 ((k, t) :: done) todo rest ->
  demands cols0 done ((k, t) :: todo)
    (v <- (s <- getitem k ;; lift (coerce t s)) ;; setitem k v ;; rest).
Proof.
  intros Hnd Hrest st st' Hunt. unfold bind, getitem, lift, setitem.
  rewrite (Hunt k Hnd).
  destruct (lookup k cols0) as [s|] eqn:El; [|discriminate].
  destruct (coerce t s) as [s'|] eqn:Ec; [|discriminate].
  intros H. constructor; [exists s, s'; now split|].
  eapply Hrest; [|exact H]. cbn [var_df columns].
  intros k0 Hk0. simpl in Hk0. rewrite lookup_assign.
  destruct (String.eqb k k0) eqn:E.
  - apply String.eqb_eq in E. tauto.
  - apply Hunt. tauto.
Qed.

Lemma demands_update_list (cols0 : Cols) (done todo : list (string * dtype))
  (ks : list string) (t : dtype) (rest : M (Env Frame) unit) :
  (forall s, coerce t s = astype t s) ->
  NoDup ks ->
  (forall k, In k ks -> ~ In k (map fst done)) ->
  demands cols0 (map (fun k => (k, t)) ks ++ done) todo rest ->
  demands cols0 done (map (fun k => (k, t)) ks ++ todo)
    (v <- (sub <- getitem_list ks ;; lift (frame_astype t sub)) ;;
     setitem_list ks v ;; rest).
Proof.
  intros Hco Hnd Hfresh Hrest st st' Hunt.
  unfold bind, getitem_list, lift, frame_astype, setitem_list.
  destruct (select ks (columns (var_df st))) as [sel|] eqn:Es;
    [|discriminate].
  cbn [columns index].
  destruct (astype_columns t sel) as [conv|] eqn:Ea; [|discriminate].
  cbn [columns index].
  destruct (negb _); [discriminate|].
  destruct (assign_zip ks conv conv (columns (var_df st))) as [cols'|] eqn:Ez;
    [|discriminate].
  destruct (select_astype_inv _ _ _ Es Ea) as [Hn Hk].
  destruct (assign_zip_run conv conv (columns (var_df st)))
    as [cols'' [Hz Hl']].
  { now rewrite Hn. }
  { intros [k s] Hin. apply lookup_present; [now rewrite Hn | exact Hin]. }
  rewrite Hn, Ez in Hz. injection Hz as <-.
  intros H. apply Forall_app. split.
  - apply Forall_forall. intros [k0 t0] Hin. apply in_map_iff in Hin.
    destruct Hin as [k1 [Heq Hk1]]. injection Heq as -> ->.
    destruct (Hk k0 Hk1) as [s [s' [Hl Ht]]].
    exists s, s'. cbn [fst snd]. rewrite Hco.
    rewrite <- (Hunt k0 (Hfresh k0 Hk1)). now split.
  - eapply Hrest; [|exact H]. cbn [var_df columns].
    intros k0 Hk0. rewrite Hl'. rewrite map_app, in_app_iff in Hk0.
    rewrite map_map in Hk0. cbn [fst] in Hk0. rewrite map_id in Hk0.
    rewrite lookup_absent by (rewrite Hn; tauto).
    apply Hunt. tauto.
Qed.

Lemma demands_nothing (cols0 : Cols) (done : list (string * dtype))
  (m : M (Env Frame) unit) : demands cols0 done [] m.
Proof. intros st st' _ _. constructor. Qed.

(** A run of [_set_types] that raises nothing was on a convertible frame. *)
Lemma set_types_demands (d0 : Frame) (out : list string) (st' : Env Frame) :
  _set_types {| var_df := d0; stdout := out |} = (Ok tt, st') ->
  convertible d0 = true.
Proof.
  intros Hrun.
  assert (Hd : demands (columns d0) [] type_map _set_types).
  { unfold _set_types.
    apply (demands_update (t := datetime64)); [simpl; tauto|].
    apply (demands_update (t := datetime64));
      [simpl; intuition discriminate|].
    apply demands_update_list;
      [reflexivity
      |repeat constructor; simpl; intuition discriminate
      |simpl; intuition (subst; discriminate)|].
    apply demands_update_list;
      [reflexivity
      |repeat constructor; simpl; intuition discriminate
      |simpl; intuition (subst; discriminate)|].
    apply (demands_update (t := category));
      [simpl; intuition discriminate|].
    apply demands_nothing. }
  specialize (Hd {| var_df := d0; stdout := out |} st'
                (fun k _ => eq_refl) Hrun).
  unfold convertible. apply forallb_forall. intros [k t] Hin.
  rewrite Forall_forall in Hd. destruct (Hd _ Hin) as [s [s' [Hl Hc]]].
  cbn [fst snd] in *. now rewrite Hl, Hc.
Qed.

(** On a frame with a declared column that is absent or does not convert,
    [_set_types] raises, and leaves behind the same frame with the
    conversions made before the failing statement. *)
Lemma set_types_raises (d0 : Frame) (out : list string) :
  convertible d0 = false ->
  exists e st',
    _set_types {| var_df := d0; stdout := out |} = (Raise e, st')
    /\ same_frame d0 (var_df st')
    /\ exists more, stdout st' = (out ++ more)%list.
Proof.
  intros Hc.
  destruct (_set_types {| var_df := d0; stdout := out |}) as [[[]|e] st']
    eqn:Hrun.
  - rewrite (set_types_demands _ _ Hrun) in Hc. discriminate.
  - exists e, st'. split; [reflexivity|].
    exact (set_types_keeps _ Hrun).
Qed.

End Completes.

(** ** MiniPandas is an instance of the documented behaviour *)

Lemma convert_dtype (t : dtype) (f : cell -> result cell)
  (s s' : MiniPandas.series) :
  MiniPandas.convert t f s = Ok s' -> MiniPandas.s_dtype s' = t.
Proof.
  unfold MiniPandas.convert.
  destruct (MiniPandas.map_result f (MiniPandas.s_cells s)); [|discriminate].
  intros H. injection H as <-. reflexivity.
Qed.

Lemma mini_laws : PandasLaws MiniPandas.mini.
Proof.
  split.
  - intros s s'. apply convert_dtype.
  - intros t s s'. destruct t; simpl; unfold MiniPandas.mini_astype;
      try apply convert_dtype; intros H; injection H as <-; reflexivity.
Qed.

Example pickup_instant :
  to_datetime (Pandas := MiniPandas.mini)
    {| MiniPandas.s_dtype := object_;
       MiniPandas.s_cells := [Str "2024-01-05 10:15:00"] |}
  = Ok {| MiniPandas.s_dtype := datetime64;
          MiniPandas.s_cells :=
            [Timestamp
               ((((19727 * 24 + 10) * 60 + 15) * 60 + 0) * 1000000000)] |}.
Proof. reflexivity. Qed.

Example vendor_one :
  astype (Pandas := MiniPandas.mini) int64
    {| MiniPandas.s_dtype := object_;
       MiniPandas.s_cells := [Str "1"] |}
  = Ok {| MiniPandas.s_dtype := int64;
          MiniPandas.s_cells := [Int 1] |}.
Proof. reflexivity. Qed.

Example format_thousands_ex :
  map PyStr.format_thousands [0; 999; 1000; 4321]
  = ["0"; "999"; "1,000"; "4,321"].
Proof. reflexivity. Qed.

Example format_mb_ex :
  map PyStr.format_mb [0%N; 1048576%N; 5243%N; 476053504%N]
  = ["0.00"; "1.00"; "0.01"; "454.00"].
Proof. reflexivity. Qed.

Example os_path_join_ex :
  os_path_join "../data/raw" "nyc" = "../data/raw/nyc"
  /\ os_path_join "dir/" "f.csv" = "dir/f.csv"
  /\ os_path_join "dir" "/abs" = "/abs".
Proof. repeat split. Qed.

(** ** Literals and plain text *)

Lemma all_some_map {A B} (f : A -> option B) :
  forall l r, all_some (map f l) = Some r -> map f l = map Some r.
Proof.
  induction l as [|a l IH]; simpl; intros r H.
  - injection H as <-. reflexivity.
  - destruct (f a) as [b|]; [|discriminate].
    destruct (all_some (map f l)) as [r'|]; [|discriminate].
    injection H as <-. simpl. now rewrite (IH r' eq_refl).
Qed.


Lemma forallb_weaken {A} (p q : A -> bool) :
  (forall a, p a = true -> q a = true) ->
  forall l, forallb p l = true -> forallb q l = true.
Proof.
  intros Hpq l H. apply forallb_forall. intros a Ha.
  apply Hpq. now apply (proj1 (forallb_forall p l) H).
Qed.

Lemma filter_all {A} (p : A -> bool) :
  forall l, forallb p l = true -> filter p l = l.
Proof.
  induction l as [|a l IH]; simpl; [reflexivity|].
  intros H. apply andb_prop in H. destruct H as [Ha Hl].
  now rewrite Ha, (IH Hl).
Qed.

(** Without an empty line below the header row, the records are the lines
    below the header row. *)
Lemma records_all_lines (text : string) :
  forallb nonblank (tl (text_lines text)) = true ->
  List.length (records text) = data_line_count text.
Proof.
  intros H. unfold records, data_line_count.
  now rewrite (filter_all _ _ H), length_map.
Qed.

(** A colon is no part of a number. *)
Lemma digits_acc_colon (s : string) :
  In ":"%char (list_ascii_of_string s) ->
  forall acc, digits_acc s acc = None.
Proof.
  induction s as [|c s IH]; simpl; intros H acc; [destruct H|].
  destruct H as [->|H]; [reflexivity|].
  destruct (digit_of c); [now apply IH | reflexivity].
Qed.

Lemma digits_colon (s : string) :
  In ":"%char (list_ascii_of_string s) -> digits s = None.
Proof.
  destruct s as [|c s]; [intros []|]. intros H. unfold digits.
  now apply digits_acc_colon.
Qed.

Lemma substring_In (c : ascii) :
  forall s i,
    substring i 1 s = String c EmptyString -> In c (list_ascii_of_string s).
Proof.
  induction s as [|a s IH]; intros [|i] H; simpl in H; try discriminate.
  - injection H as -> _. now left.
  - right. exact (IH _ H).
Qed.

Lemma split_sign_colon (s : string) :
  In ":"%char (list_ascii_of_string s) ->
  In ":"%char (list_ascii_of_string (snd (split_sign s))).
Proof.
  destruct s as [|c s]; [intros []|]. unfold split_sign.
  destruct (Ascii.eqb c "-") eqn:E1.
  { apply Ascii.eqb_eq in E1. subst c. intros [H|H]; [discriminate | exact H]. }
  destruct (Ascii.eqb c "+") eqn:E2.
  { apply Ascii.eqb_eq in E2. subst c. intros [H|H]; [discriminate | exact H]. }
  intros H. exact H.
Qed.

Lemma parse_int_colon (s : string) :
  In ":"%char (list_ascii_of_string s) -> parse_int s = None.
Proof.
  intros H. apply split_sign_colon in H. unfold parse_int.
  destruct (split_sign s) as [neg body]. cbn [snd] in H.
  now rewrite (digits_colon _ H).
Qed.

Lemma split_on_In (sep c : ascii) :
  c <> sep ->
  forall s,
    In c (list_ascii_of_string s) ->
    exists p, In p (split_on sep s) /\ In c (list_ascii_of_string p).
Proof.
  intros Hc. induction s as [|a s IH]; simpl; intros H; [destruct H|].
  destruct (Ascii.eqb a sep) eqn:E.
  - apply Ascii.eqb_eq in E. subst a.
    destruct H as [H|H]; [now elim Hc|].
    destruct (IH H) as [p [Hp Hin]]. exists p. split; [now right | exact Hin].
  - destruct (split_on sep s) as [|piece rest].
    + destruct H as [->|H].
      * exists (String c EmptyString). split; now left.
      * destruct (IH H) as [p [[] _]].
    + destruct H as [->|H].
      * exists (String c piece). split; now left.
      * destruct (IH H) as [p [[<-|Hp] Hin]].
        -- exists (String a piece). split; [now left | now right].
        -- exists p. split; [now right | exact Hin].
Qed.

Lemma list_ascii_app (a b : string) :
  list_ascii_of_string (a ++ b)
  = (list_ascii_of_string a ++ list_ascii_of_string b)%list.
Proof. induction a as [|c a IH]; simpl; [reflexivity | now rewrite IH]. Qed.

Lemma parse_float_colon (s : string) :
  In ":"%char (list_ascii_of_string s) -> parse_float s = None.
Proof.
  intros H. apply split_sign_colon in H. unfold parse_float.
  destruct (split_sign s) as [neg body]. cbn [snd] in H.
  destruct (@split_on_In "."%char ":"%char ltac:(discriminate) _ H)
    as [p [Hp Hin]].
  destruct (split_on "." body) as [|w [|f [|x r]]]; try reflexivity.
  - destruct Hp as [<-|[]]. now rewrite (digits_colon _ Hin).
  - assert (Hwf : In ":"%char (list_ascii_of_string (w ++ f))).
    { rewrite list_ascii_app. apply in_or_app.
      destruct Hp as [<-|[<-|[]]]; [now left | now right]. }
    now rewrite (digits_colon _ Hwf).
Qed.

Lemma parse_timestamp_colon (s : string) (ns : Z) :
  parse_timestamp s = Some ns -> In ":"%char (list_ascii_of_string s).
Proof.
  unfold parse_timestamp. destruct (civil_timestamp s) eqn:E; [|discriminate].
  intros _. unfold civil_timestamp in E.
  repeat (destruct (digits _); [|discriminate]).
  match type of E with
  | (if ?b then _ else _) = _ => destruct b eqn:B; [|discriminate]
  end.
  apply andb_prop in B. destruct B as [B _].
  apply andb_prop in B. destruct B as [B _].
  apply andb_prop in B. destruct B as [_ B].
  apply String.eqb_eq in B. exact (substring_In _ _ B).
Qed.

(** ** MiniPandas reads plain text as pandas does *)

Lemma is_na_colon (s : string) :
  In ":"%char (list_ascii_of_string s) -> MiniPandas.is_na s = false.
Proof.
  intros H. destruct (MiniPandas.is_na s) eqn:E; [|reflexivity].
  unfold MiniPandas.is_na in E. apply existsb_exists in E.
  destruct E as [m [Hin Heq]]. apply String.eqb_eq in Heq. subst m.
  simpl in Hin.
  repeat (destruct Hin as [<-|Hin]; [simpl in H; intuition discriminate|]).
  destruct Hin.
Qed.

Lemma is_na_float (s : string) (x : spec_float) :
  parse_float s = Some x -> MiniPandas.is_na s = false.
Proof.
  intros H. destruct (MiniPandas.is_na s) eqn:E; [|reflexivity].
  unfold MiniPandas.is_na in E. apply existsb_exists in E.
  destruct E as [m [Hin Heq]]. apply String.eqb_eq in Heq. subst m.
  simpl in Hin.
  repeat (destruct Hin as [<-|Hin]; [vm_compute in H; discriminate|]).
  destruct Hin.
Qed.

(** A timestamp literal or a flag is read as the string it is. *)
Lemma text_literal_cells (s : string) :
  text_literal s = true ->
  parse_int s = None
  /\ MiniPandas.float_cell s = None
  /\ MiniPandas.str_cell s = Str s.
Proof.
  unfold text_literal, MiniPandas.float_cell, MiniPandas.str_cell.
  destruct (parse_timestamp s) as [ns|] eqn:E.
  - intros _. apply parse_timestamp_colon in E.
    rewrite (is_na_colon _ E), (parse_float_colon _ E).
    repeat split. now apply parse_int_colon.
  - unfold flag. intros H. apply orb_prop in H.
    destruct H as [H|H]; apply String.eqb_eq in H; subst s;
      repeat split; reflexivity.
Qed.

Lemma float_literal_cell (s : string) (x : spec_float) :
  float_literal s = Some x -> MiniPandas.float_cell s = Some (Float x).
Proof.
  unfold float_literal, MiniPandas.float_cell.
  destruct (digit_count s <=? 15)%nat; [|discriminate].
  intros H. now rewrite (is_na_float _ H), H.
Qed.

Lemma float_literal_cells :
  forall raw xs,
    all_some (map float_literal raw) = Some xs ->
    all_some (map MiniPandas.float_cell raw) = Some (map Float xs).
Proof.
  induction raw as [|a raw IH]; simpl; intros xs H.
  - injection H as <-. reflexivity.
  - destruct (float_literal a) as [x|] eqn:E; [|discriminate].
    destruct (all_some (map float_literal raw)) as [r|]; [|discriminate].
    injection H as <-.
    now rewrite (float_literal_cell _ E), (IH r eq_refl).
Qed.

Lemma text_literal_strings :
  forall raw,
    forallb text_literal raw = true -> map MiniPandas.str_cell raw = map Str raw.
Proof.
  induction raw as [|a raw IH]; simpl; intros H; [reflexivity|].
  apply andb_prop in H. destruct H as [Ha Hr].
  destruct (text_literal_cells _ Ha) as [_ [_ Hs]].
  now rewrite Hs, (IH Hr).
Qed.

(** What type inference makes of a column is what the laws ask for. *)
Lemma infer_reads (raw : list string) :
  reads raw (MiniPandas.s_cells (MiniPandas.infer raw)).
Proof.
  destruct raw as [|a raw].
  { repeat split.
    - intros zs H _. simpl in H. now injection H as <-.
    - intros xs H. discriminate. }
  unfold MiniPandas.infer. split; [|split].
  - intros zs H Hin. now rewrite H, Hin.
  - intros xs Hnone Hfl.
    now rewrite Hnone, (float_literal_cells _ Hfl).
  - intros Ht. pose proof Ht as Ht'. cbn [forallb] in Ht'.
    apply andb_prop in Ht'. destruct Ht' as [Ha _].
    destruct (text_literal_cells _ Ha) as [Hi [Hf _]].
    cbn [map all_some fold_right]. rewrite Hi, Hf.
    exact (text_literal_strings _ Ht).
Qed.

Lemma printable_not_CR (c : ascii) :
  printable c = true -> Ascii.eqb c MiniPandas.CR = false.
Proof.
  intros H. destruct (Ascii.eqb c MiniPandas.CR) eqn:E; [|reflexivity].
  apply Ascii.eqb_eq in E. subst c. discriminate.
Qed.

Lemma strip_cr_plain :
  forall l,
    forallb printable (list_ascii_of_string l) = true ->
    MiniPandas.strip_cr l = l.
Proof.
  induction l as [|c l IH]; [reflexivity|]. intros H.
  cbn [list_ascii_of_string forallb] in H. apply andb_prop in H.
  destruct H as [Hc Hl]. destruct l as [|c' l'].
  - cbn [MiniPandas.strip_cr]. now rewrite (printable_not_CR _ Hc).
  - change (String c (MiniPandas.strip_cr (String c' l')) = String c (String c' l')).
    now rewrite (IH Hl).
Qed.

Lemma strip_cr_lines :
  forall lines,
    forallb plain_line lines = true -> map MiniPandas.strip_cr lines = lines.
Proof.
  induction lines as [|l lines IH]; simpl; intros H; [reflexivity|].
  apply andb_prop in H. destruct H as [Hl Hr].
  unfold plain_line in Hl. apply andb_prop in Hl. destruct Hl as [Hl _].
  now rewrite (strip_cr_plain _ Hl), (IH Hr).
Qed.

(** On plain text the parser makes a table of the header line and the
    non-empty lines below it. *)
Lemma mini_read_plain (text : string) :
  plain_lines text = true ->
  exists h rest,
    text_lines text = h :: rest
    /\ MiniPandas.mini_read_csv text
       = MiniPandas.table h (filter nonblank rest).
Proof.
  unfold plain_lines, MiniPandas.mini_read_csv.
  destruct (text_lines text) as [|h rest]; [discriminate|].
  intros H. apply andb_prop in H. destruct H as [Hh Hall].
  exists h, rest. split; [reflexivity|].
  rewrite (strip_cr_lines _ Hall). cbn [filter]. now rewrite Hh.
Qed.

Lemma names_seq :
  forall names : list string,
    map (fun i => nth i names EmptyString) (seq 0 (List.length names)) = names.
Proof.
  induction names as [|n names IH]; simpl; [reflexivity|].
  f_equal. rewrite <- seq_shift, map_map. exact IH.
Qed.

Lemma lookup_seq (names : list string) (k : string) :
  forall g : nat -> MiniPandas.series,
    lookup (P := MiniPandas.mini) k
      (map (fun i => (nth i names EmptyString, g i))
           (seq 0 (List.length names)))
    = option_map g (position k names).
Proof.
  induction names as [|n names IH]; intros g; simpl; [reflexivity|].
  destruct (String.eqb n k); [reflexivity|].
  rewrite <- seq_shift, map_map.
  rewrite (IH (fun i => g (S i))). now destruct (position k names).
Qed.

Lemma table_ok (h : string) (data : list string) (d : DataFrame MiniPandas.series) :
  MiniPandas.table h data = Ok d ->
  index d = List.length data
  /\ columns d
     = map (fun i => (nth i (fields h) EmptyString,
                      MiniPandas.infer (raw_cell (map fields data) i)))
           (seq 0 (List.length (fields h))).
Proof.
  unfold MiniPandas.table. destruct (forallb _ _); [|discriminate].
  intros H. injection H as <-. cbn [index columns].
  now rewrite length_map.
Qed.

Lemma table_rectangular (h : string) (data : list string) :
  forallb (fun r => (List.length r =? List.length (fields h))%nat)
    (map fields data) = true ->
  exists d, MiniPandas.table h data = Ok d.
Proof.
  intros H. unfold MiniPandas.table.
  rewrite (forallb_weaken
             (fun r => (List.length r =? List.length (fields h))%nat)
             (fun r => (List.length r <=? List.length (fields h))%nat)).
  - eexists. reflexivity.
  - intros r Hr. apply Nat.eqb_eq in Hr. apply Nat.leb_le. lia.
  - exact H.
Qed.

Lemma mini_csv_laws : CsvLaws MiniPandas.mini.
Proof.
  split.
  - intros text H. unfold plain in H. apply andb_prop in H.
    destruct H as [Hl Hr].
    destruct (mini_read_plain _ Hl) as [h [rest [Ht Hread]]].
    cbn [read_csv_text MiniPandas.mini]. rewrite Hread.
    apply table_rectangular. unfold rectangular in Hr.
    apply andb_prop in Hr. destruct Hr as [_ Hr].
    unfold records, header_names in Hr. now rewrite Ht in Hr.
  - intros text d Hl Hp.
    destruct (mini_read_plain _ Hl) as [h [rest [Ht Hread]]].
    cbn [read_csv_text MiniPandas.mini] in Hp. rewrite Hread in Hp.
    destruct (table_ok _ _ Hp) as [Hi _].
    unfold records. rewrite Ht. cbn [tl]. now rewrite length_map.
  - intros text d H Hp. unfold plain in H. apply andb_prop in H.
    destruct H as [Hl _].
    destruct (mini_read_plain _ Hl) as [h [rest [Ht Hread]]].
    cbn [read_csv_text MiniPandas.mini] in Hp. rewrite Hread in Hp.
    destruct (table_ok _ _ Hp) as [_ Hc].
    change (map fst (columns (S := MiniPandas.series) d) = header_names text).
    rewrite Hc, map_map.
    unfold header_names. rewrite Ht. cbn [fst]. apply names_seq.
  - intros text d k raw H Hp Hct. unfold plain in H. apply andb_prop in H.
    destruct H as [Hl _].
    destruct (mini_read_plain _ Hl) as [h [rest [Ht Hread]]].
    cbn [read_csv_text MiniPandas.mini] in Hp. rewrite Hread in Hp.
    destruct (table_ok _ _ Hp) as [_ Hc].
    change (exists s : MiniPandas.series,
              lookup (P := MiniPandas.mini) k
                (columns (S := MiniPandas.series) d) = Some s
              /\ reads raw (MiniPandas.s_cells s)).
    rewrite Hc.
    unfold column_text, header_names, records in Hct. rewrite Ht in Hct.
    cbn [tl] in Hct. rewrite lookup_seq.
    destruct (position k (fields h)) as [j|]; [|discriminate].
    cbn [option_map] in Hct |- *. injection Hct as <-.
    eexists. split; [reflexivity|]. apply infer_reads.
Qed.

(** ** MiniPandas converts values as pandas does *)

Lemma wrap64_in (z : Z) : in_int64 (MiniPandas.wrap64 z) = true.
Proof.
  unfold in_int64, MiniPandas.wrap64.
  change (2 ^ 63)%Z with 9223372036854775808%Z.
  change (2 ^ 64)%Z with 18446744073709551616%Z.
  pose proof (Z.mod_pos_bound (z + 9223372036854775808)
                18446744073709551616 eq_refl) as H.
  apply andb_true_intro. split; [apply Z.leb_le | apply Z.ltb_lt]; lia.
Qed.

Lemma wrap64_id (z : Z) : in_int64 z = true -> MiniPandas.wrap64 z = z.
Proof.
  unfold in_int64, MiniPandas.wrap64.
  change (2 ^ 63)%Z with 9223372036854775808%Z.
  change (2 ^ 64)%Z with 18446744073709551616%Z.
  intros H. apply andb_prop in H. destruct H as [H1 H2].
  apply Z.leb_le in H1. apply Z.ltb_lt in H2.
  rewrite Z.mod_small; lia.
Qed.






(** ** The claims *)

Section Claims.

Context {P : Pandas}.

Local Abbreviation Frame := (DataFrame Series).

(** The call is the [try] block followed by the [return]: a completed block
    returns the bound table; a block that raised has its exception printed,
    and the [return] then finds [df] bound or not. *)
Lemma load_unfold (w : World) :
  load w =
    let (r, st) := try_body w fresh in
    (match var_df st with
     | Some d => Ok d
     | None => Raise (unbound_local "df")
     end,
     match r with
     | Ok _ => stdout st
     | Raise e => (stdout st ++ [error_line e])%list
     end).
Proof.
  unfold load, get_cleaned_df, bind, try_except, handler, print, load_df, fresh.
  destruct (try_body w _) as [[[]|e] st]; cbn [var_df stdout];
    destruct (var_df st); reflexivity.
Qed.

(** A call that returns a table has listed the directory, taken the first
    match, parsed it, and run [_set_types] on the parsed frame. *)
Lemma load_returns (w : World) (d' : Frame) (out : list string) :
  load w = (Ok d', out) ->
  exists files f d0 r st,
    os_listdir w dataset_dir = Ok files
    /\ hd_error (cleaned_files files) = Some f
    /\ pd_read_csv w (os_path_join dataset_dir f) = Ok d0
    /\ _set_types {| var_df := d0;
                     stdout := [loading_line f; loaded_line d0] |} = (r, st)
    /\ d' = var_df st.
Proof.
  intros H. destruct (os_listdir w dataset_dir) as [files|e] eqn:El.
  2:{ rewrite (load_listing_raises _ El) in H. discriminate. }
  destruct (cleaned_files files) as [|f rest] eqn:Ec.
  { rewrite (load_none_matches _ El Ec) in H. discriminate. }
  assert (Hf : hd_error (cleaned_files files) = Some f) by now rewrite Ec.
  rewrite (load_first_match _ El Hf) in H.
  destruct (pd_read_csv w (os_path_join dataset_dir f)) as [d0|e] eqn:Ep;
    [|discriminate].
  destruct (_set_types _) as [r st] eqn:Es. injection H as <- _.
  exists files, f, d0, r, st. rewrite Ec. repeat split; assumption.
Qed.

Lemma same_columns_names (a b : list (string * Series)) :
  same_columns a b -> map fst b = map fst a.
Proof.
  induction 1 as [|x y a b [Hn _] _ IH]; simpl; [reflexivity|].
  now rewrite Hn, IH.
Qed.

Lemma same_columns_lookup (a b : list (string * Series)) (k : string) :
  same_columns a b -> ~ In k declared -> lookup k b = lookup k a.
Proof.
  intros H Hk. induction H as [|[n s] [n' s'] a b [Hn Hv] _ IH]; simpl;
    [reflexivity|].
  cbn [fst snd] in Hn, Hv. subst n'.
  destruct (String.eqb n k) eqn:E; [|exact IH].
  apply String.eqb_eq in E. subst n. now rewrite Hv.
Qed.

Lemma no_candidates (files : list string) :
  (forall f, In f files -> PyStr.endswith f "_cleaned.csv" = false) ->
  cleaned_files files = [].
Proof.
  intros H. unfold cleaned_files, cleaned_suffix.
  induction files as [|f files IH]; [reflexivity|]. simpl.
  rewrite (H f (or_introl eq_refl)). apply IH. intros g Hg. apply H. now right.
Qed.

Lemma first_candidate (pre post : list string) (f : string) :
  (forall g, In g pre -> PyStr.endswith g "_cleaned.csv" = false) ->
  PyStr.endswith f "_cleaned.csv" = true ->
  hd_error (cleaned_files (pre ++ f :: post)) = Some f.
Proof.
  intros Hpre Hf. unfold cleaned_files, cleaned_suffix.
  induction pre as [|g pre IH]; simpl.
  - now rewrite Hf.
  - rewrite (Hpre g (or_introl eq_refl)). apply IH.
    intros g' Hg'. apply Hpre. now right.
Qed.

(** C1.  What the code does where the claim asks for no table: when the
    selected file parses and one of its declared columns does not convert,
    the handler prints the failure and the call still returns a table to
    the caller, namely the parsed frame as [_set_types] left it when it
    raised, with the rows and the column names of the parsed table. *)
Theorem C1_coercion_failure_still_returns_table (w : World)
  (files : list string) (f : string) (d0 : Frame)
  (k : string) (t : dtype) (s : Series) (e0 : exn) :
  os_listdir w dataset_dir = Ok files ->
  hd_error (cleaned_files files) = Some f ->
  pd_read_csv w (os_path_join dataset_dir f) = Ok d0 ->
  In (k, t) type_map ->
  lookup k (columns d0) = Some s ->
  coerce t s = Raise e0 ->
  exists d' e out,
    _set_types {| var_df := d0;
                  stdout := [loading_line f; loaded_line d0] |}
    = (Raise e, {| var_df := d'; stdout := out |})
    /\ load w = (Ok d', (out ++ [error_line e])%list)
    /\ index d' = index d0
    /\ map fst (columns d') = map fst (columns d0).
Proof.
  intros Hl Hf Hp Hin Hs Hco.
  assert (Hc : convertible d0 = false).
  { destruct (convertible d0) eqn:Hc; [|reflexivity].
    destruct (convertible_In d0 Hc Hin) as [s1 [s' [Hs1 Hco1]]].
    rewrite Hs in Hs1. injection Hs1 as <-. rewrite Hco in Hco1.
    discriminate. }
  destruct (set_types_raises d0 [loading_line f; loaded_line d0] Hc)
    as [e [st [Hrun [[Hi Hcols] _]]]].
  rewrite (load_first_match _ Hl Hf), Hp, Hrun. destruct st as [d' out].
  exists d', e, out. cbn [var_df stdout] in *. repeat split.
  - exact Hi.
  - now apply same_columns_names.
Qed.

(** C2, as amended.  When the first entry of the listing that ends in
    [_cleaned.csv] names a file that parses, and every declared column of
    the parsed table is present and convertible, the call returns a table
    in which the two pickup/dropoff columns are timestamps, the six
    identifier and count columns are 64-bit integers, the twelve money,
    distance and duration columns are 64-bit floats, and
    [store_and_fwd_flag] is categorical. *)
Theorem C2_first_match_typed (L : PandasLaws P) (w : World)
  (files : list string) (f : string) (d0 : Frame) :
  os_listdir w dataset_dir = Ok files ->
  hd_error (cleaned_files files) = Some f ->
  pd_read_csv w (os_path_join dataset_dir f) = Ok d0 ->
  convertible d0 = true ->
  exists d' out,
    load w = (Ok d', out)
    /\ List.length datetime_features = 2
    /\ List.length int_features = 6
    /\ List.length float_features = 12
    /\ (forall k, In k datetime_features ->
          option_map dtype_of (lookup k (columns d')) = Some datetime64)
    /\ (forall k, In k int_features ->
          option_map dtype_of (lookup k (columns d')) = Some int64)
    /\ (forall k, In k float_features ->
          option_map dtype_of (lookup k (columns d')) = Some float64)
    /\ option_map dtype_of (lookup "store_and_fwd_flag" (columns d'))
       = Some category.
Proof.
  intros Hl Hf Hp Hc. rewrite (load_first_match _ Hl Hf), Hp.
  destruct (set_types_completes d0 [loading_line f; loaded_line d0] Hc)
    as [st [Hrun Hconv]].
  rewrite Hrun. exists (var_df st), (stdout st).
  assert (Hty : forall k t, In (k, t) type_map ->
            option_map dtype_of (lookup k (columns (var_df st))) = Some t).
  { intros k t Hin. destruct (convertible_In d0 Hc Hin) as [s [s0 [Hs _]]].
    destruct (Hconv k t s Hin Hs) as [s' [Hco Hs']]. rewrite Hs'. simpl.
    f_equal. destruct t; simpl in Hco;
      first [exact (to_datetime_dtype _ Hco) | exact (astype_dtype _ _ Hco)]. }
  repeat split.
  - intros k Hk. apply Hty. unfold type_map. apply in_or_app. left.
    now apply (in_map (fun k => (k, datetime64))).
  - intros k Hk. apply Hty. unfold type_map. apply in_or_app. right.
    apply in_or_app. left. now apply (in_map (fun k => (k, int64))).
  - intros k Hk. apply Hty. unfold type_map. apply in_or_app. right.
    apply in_or_app. right. apply in_or_app. left.
    now apply (in_map (fun k => (k, float64))).
  - apply Hty. unfold type_map. apply in_or_app. right.
    apply in_or_app. right. apply in_or_app. right. now left.
Qed.

(** C3.  When no entry of the listing ends in [_cleaned.csv], the [try]
    block raises the dataset-not-found error before anything is read, the
    call prints its message and ends in an exception (the unbound-local
    error of the final [return]): no file is parsed, the variable [df] is
    never bound, and no table reaches the caller. *)
Theorem C3_no_match_no_table (w : World) (files : list string) :
  os_listdir w dataset_dir = Ok files ->
  (forall f, In f files -> PyStr.endswith f "_cleaned.csv" = false) ->
  try_body w fresh = (Raise not_found, fresh)
  /\ exn_type not_found = FileNotFoundError
  /\ load w
     = (Raise (unbound_local "df"),
        [error_prefix
         ++ "No cleaned dataset found. Please run the cleaning notebook first."])
  /\ forall w', os_listdir w' = os_listdir w -> load w' = load w.
Proof.
  intros Hl Hnone. pose proof (no_candidates _ Hnone) as Hc.
  split; [|split; [reflexivity|split]].
  - unfold try_body, bind, lift. rewrite Hl, Hc. reflexivity.
  - exact (load_none_matches _ Hl Hc).
  - intros w' Hw. rewrite (load_none_matches _ Hl Hc).
    apply load_none_matches with (files := files); [|exact Hc].
    now rewrite Hw.
Qed.

(** C4, as amended.  When no entry matches, the message reported is the
    fixed text of the [FileNotFoundError] raised in the [try] block: it
    names the missing artefact and the step to run first, and it contains
    neither the suffix [_cleaned.csv] nor the path of the directory. *)
Theorem C4_not_found_message (w : World) (files : list string) :
  os_listdir w dataset_dir = Ok files ->
  cleaned_files files = [] ->
  let msg :=
    "No cleaned dataset found. Please run the cleaning notebook first." in
  snd (load w) = [error_prefix ++ msg]
  /\ PyStr.contains "No cleaned dataset found" msg = true
  /\ PyStr.contains "Please run the cleaning notebook first" msg = true
  /\ PyStr.contains cleaned_suffix (error_prefix ++ msg) = false
  /\ PyStr.contains dataset_dir (error_prefix ++ msg) = false.
Proof.
  intros Hl Hc msg. rewrite (load_none_matches _ Hl Hc).
  repeat split; reflexivity.
Qed.

(** C5, as amended.  The file loaded is the first entry, in the order of
    the listing, that ends in [_cleaned.csv]: its path is the one
    announced, and a second call that obtains the same listing and finds
    the same text under that path ends as the first one did, whatever the
    other files hold. *)
Theorem C5_first_match_in_listing_order (w : World)
  (pre post : list string) (f : string) :
  os_listdir w dataset_dir = Ok (pre ++ f :: post)%list ->
  (forall g, In g pre -> PyStr.endswith g "_cleaned.csv" = false) ->
  PyStr.endswith f "_cleaned.csv" = true ->
  hd_error (snd (load w))
  = Some (" Loading Dataset: " ++ os_path_join dataset_dir f)
  /\ forall w',
       os_listdir w' dataset_dir = os_listdir w dataset_dir ->
       read_text w' (os_path_join dataset_dir f)
       = read_text w (os_path_join dataset_dir f) ->
       load w' = load w.
Proof.
  intros Hl Hpre Hf. pose proof (first_candidate pre post f Hpre Hf) as Hhd.
  split.
  - rewrite (load_first_match _ Hl Hhd).
    destruct (pd_read_csv w (os_path_join dataset_dir f)); [|reflexivity].
    destruct (_set_types _) as [r st] eqn:Es.
    destruct (set_types_keeps _ Es) as [_ [more Hout]]. cbn [stdout] in Hout.
    rewrite Hout. destruct r; reflexivity.
  - intros w' Hl' Hr. rewrite Hl in Hl'.
    rewrite (load_first_match _ Hl' Hhd), (load_first_match _ Hl Hhd).
    unfold pd_read_csv. now rewrite Hr.
Qed.

(** C6.  A table that the call returns has the column names of the parsed
    table, in the same order, and every column that is not one of the
    twenty-one declared ones is the column the parser produced. *)
Theorem C6_undeclared_columns_unaltered (w : World) (d' : Frame)
  (out : list string) :
  load w = (Ok d', out) ->
  exists files f d0,
    os_listdir w dataset_dir = Ok files
    /\ hd_error (cleaned_files files) = Some f
    /\ pd_read_csv w (os_path_join dataset_dir f) = Ok d0
    /\ List.length declared = 21
    /\ map fst (columns d') = map fst (columns d0)
    /\ Forall2
         (fun c c' =>
            fst c' = fst c /\ (~ In (fst c) declared -> snd c' = snd c))
         (columns d0) (columns d').
Proof.
  intros H. destruct (load_returns _ H)
    as [files [f [d0 [r [st [Hl [Hf [Hp [Hs ->]]]]]]]]].
  destruct (set_types_keeps _ Hs) as [[_ Hcols] _]. cbn [var_df] in Hcols.
  exists files, f, d0. repeat split; try assumption.
  now apply same_columns_names.
Qed.

(** C7, as amended.  The selected file is plain text (printable ASCII
    without a double quote, a header line that is not empty, no line that
    starts with a blank).  A table that the call returns then has as many
    rows as the file has non-empty lines below its header row, which is
    the number of lines below the header row when none of them is empty,
    and that number is the row count the call has printed. *)
Theorem C7_row_count (L : CsvLaws P) (w : World) (files : list string)
  (f text : string) (d' : Frame) (out : list string) :
  os_listdir w dataset_dir = Ok files ->
  hd_error (cleaned_files files) = Some f ->
  read_text w (os_path_join dataset_dir f) = Ok text ->
  plain_lines text = true ->
  load w = (Ok d', out) ->
  index d' = List.length (records text)
  /\ (forallb nonblank (tl (text_lines text)) = true ->
      index d' = data_line_count text)
  /\ nth_error out 1
     = Some (" Dataset Loaded Successfully! Total Rows: "
             ++ PyStr.format_thousands (List.length (records text))).
Proof.
  intros Hl Hf Hr Hplain H.
  rewrite (load_first_match _ Hl Hf) in H. unfold pd_read_csv in H.
  rewrite Hr in H.
  destruct (read_csv_text text) as [d0|e] eqn:Hp; [|discriminate].
  destruct (_set_types _) as [r st] eqn:Es. injection H as <- <-.
  destruct (set_types_keeps _ Es) as [[Hi _] [more Hout]].
  cbn [var_df stdout] in Hi, Hout.
  pose proof (read_csv_rows _ Hplain Hp) as Hn.
  assert (Hd : index (var_df st) = List.length (records text)) by congruence.
  split; [exact Hd|]. split.
  - intros Hall. now rewrite Hd, records_all_lines.
  - rewrite Hout. unfold loaded_line. rewrite Hn.
    destruct r; reflexivity.
Qed.



(** C10.  An exception raised inside the [try] block is printed by the
    handler and goes no further: the call then returns the table if [df]
    was already bound, and raises the unbound-local error for [df] if it
    was not, which is the case when the listing failed, when no entry
    matched and when the file did not parse.  The only exception a call
    ever raises is that unbound-local error. *)
Theorem C10_failures_are_swallowed (w : World) (e : exn)
  (st : Env (option Frame)) :
  try_body w fresh = (Raise e, st) ->
  load w
  = (match var_df st with
     | Some d => Ok d
     | None => Raise (unbound_local "df")
     end,
     (stdout st ++ [error_line e])%list)
  /\ (forall x, fst (load w) = Raise x -> x = unbound_local "df")
  /\ ((exists e0, os_listdir w dataset_dir = Raise e0)
      \/ (exists files,
            os_listdir w dataset_dir = Ok files
            /\ cleaned_files files = [])
      \/ (exists files f e0,
            os_listdir w dataset_dir = Ok files
            /\ hd_error (cleaned_files files) = Some f
            /\ pd_read_csv w (os_path_join dataset_dir f) = Raise e0) ->
      var_df st = None /\ fst (load w) = Raise (unbound_local "df")).
Proof.
  intros Ht. pose proof (load_unfold w) as Hu. rewrite Ht in Hu.
  split; [exact Hu|]. split.
  - intros x Hx. rewrite Hu in Hx. cbn [fst] in Hx.
    destruct (var_df st); [discriminate|]. now injection Hx as <-.
  - assert (Hnone : fst (load w) = Raise (unbound_local "df") ->
                    var_df st = None /\ fst (load w) = Raise (unbound_local "df")).
    { intros Hx. split; [|exact Hx]. rewrite Hu in Hx. cbn [fst] in Hx.
      destruct (var_df st); [discriminate | reflexivity]. }
    intros [[e0 Hl]|[[files [Hl Hc]]|[files [f [e0 [Hl [Hf Hp]]]]]]];
      apply Hnone.
    + now rewrite (load_listing_raises _ Hl).
    + now rewrite (load_none_matches _ Hl Hc).
    + now rewrite (load_first_match _ Hl Hf), Hp.
Qed.

End Claims.

(** ** The loader on the sample directories *)

Section Samples.

Import MiniPandas.

Local Abbreviation run := (load (P := mini)).

(** One matching file that parses, with the text [abc] in the second row of
    [fare_amount].  The float conversion raises, the handler prints the
    failure, and the call still returns the table: its timestamp and
    integer columns are converted, [fare_amount] and [store_and_fwd_flag]
    are the columns of strings the parser produced. *)
Example bad_fare_returns_partly_typed_table :
  pd_read_csv (P := mini) world_bad_fare
    (os_path_join dataset_dir cleaned_name) = Ok parsed_bad
  /\ option_map (astype (Pandas := mini) float64)
       (lookup (P := mini) "fare_amount" (columns parsed_bad))
     = Some (Raise (value_error "could not convert string to float: 'abc'"))
  /\ exists d out,
       run world_bad_fare = (Ok d, out)
       /\ last out EmptyString
          = error_prefix ++ "could not convert string to float: 'abc'"
       /\ option_map s_dtype
            (lookup (P := mini) "tpep_pickup_datetime" (columns parsed_bad))
          = Some object_
       /\ option_map s_dtype
            (lookup (P := mini) "tpep_pickup_datetime" (columns d))
          = Some datetime64
       /\ option_map s_dtype (lookup (P := mini) "fare_amount" (columns d))
          = Some object_
       /\ option_map s_dtype
            (lookup (P := mini) "store_and_fwd_flag" (columns d))
          = Some object_.
Proof.
  split; [vm_compute; reflexivity|]. split; [vm_compute; reflexivity|].
  destruct (run world_bad_fare) as [r out] eqn:E. vm_compute in E.
  injection E as <- <-. eexists. eexists. split; [reflexivity|].
  repeat split.
Qed.

Lemma C1_coercion_failure_still_returns_table_on_sample :
  exists d' e out,
    _set_types (P := mini)
      {| var_df := parsed_bad;
         stdout := [loading_line cleaned_name;
                    loaded_line (P := mini) parsed_bad] |}
    = (Raise e, {| var_df := d'; stdout := out |})
    /\ run world_bad_fare = (Ok d', (out ++ [error_line e])%list)
    /\ index d' = index parsed_bad
    /\ map fst (columns d') = map fst (columns parsed_bad).
Proof.
  apply (@C1_coercion_failure_still_returns_table mini world_bad_fare
           ["yellow_tripdata_2024-01.csv"; cleaned_name] cleaned_name
           parsed_bad "fare_amount" float64
           {| s_dtype := object_; s_cells := [Str "17.7"; Str "abc"] |}
           (value_error "could not convert string to float: 'abc'"));
    try (vm_compute; reflexivity).
  simpl. tauto.
Defined.

(** C2, the claim as stated fails: the directory holds [b_cleaned.csv],
    which parses and converts, but the entry listed first is
    [a_cleaned.csv], which does not parse, and the call returns no
    table. *)
Lemma C2_counterexample_second_match_ignored :
  os_listdir world_first_unreadable dataset_dir
  = Ok ["a_cleaned.csv"; "b_cleaned.csv"]
  /\ PyStr.endswith "b_cleaned.csv" "_cleaned.csv" = true
  /\ pd_read_csv (P := mini) world_first_unreadable
       (os_path_join dataset_dir "b_cleaned.csv") = Ok parsed_good
  /\ convertible (P := mini) parsed_good = true
  /\ fst (run world_first_unreadable) = Raise (unbound_local "df").
Proof. repeat split; vm_compute; reflexivity. Qed.

Lemma C2_first_match_typed_on_sample :
  exists d' out,
    run world_good = (Ok d', out)
    /\ option_map s_dtype (lookup (P := mini) "VendorID" (columns d'))
       = Some int64
    /\ option_map s_dtype (lookup (P := mini) "total_amount" (columns d'))
       = Some float64
    /\ option_map s_dtype
         (lookup (P := mini) "store_and_fwd_flag" (columns d'))
       = Some category.
Proof.
  destruct (@C2_first_match_typed mini mini_laws world_good
              ["README.md"; "yellow_tripdata_2024-01.csv"; cleaned_name]
              cleaned_name parsed_good)
    as [d' [out [Hrun [_ [_ [_ [_ [Hint [Hfl Hcat]]]]]]]]];
    try (vm_compute; reflexivity).
  exists d', out. split; [exact Hrun|]. split; [|split].
  - apply Hint. simpl. tauto.
  - apply Hfl. simpl. tauto.
  - exact Hcat.
Defined.

Lemma C3_no_match_no_table_on_sample :
  run world_no_cleaned
  = (Raise (unbound_local "df"),
     [error_prefix
      ++ "No cleaned dataset found. Please run the cleaning notebook first."]).
Proof.
  refine (proj1 (proj2 (proj2
            (@C3_no_match_no_table mini world_no_cleaned
               ["README.md"; "yellow_tripdata_2024-01.csv";
                "trips_Cleaned.CSV"; "trips_cleaned.csv.bak"] _ _)))).
  - reflexivity.
  - intros f [<-|[<-|[<-|[<-|[]]]]]; reflexivity.
Defined.

(** C4, the claim as stated fails: no entry matches, and neither the line
    printed nor the text of the exception the caller receives contains the
    suffix or the path of the directory. *)
Lemma C4_counterexample_message_without_suffix_and_path :
  os_listdir world_no_cleaned dataset_dir
  = Ok ["README.md"; "yellow_tripdata_2024-01.csv";
        "trips_Cleaned.CSV"; "trips_cleaned.csv.bak"]
  /\ cleaned_files ["README.md"; "yellow_tripdata_2024-01.csv";
                    "trips_Cleaned.CSV"; "trips_cleaned.csv.bak"] = []
  /\ forallb
       (fun line =>
          negb (PyStr.contains "_cleaned.csv" line)
          && negb (PyStr.contains dataset_dir line))
       (snd (run world_no_cleaned)) = true
  /\ exists x,
       fst (run world_no_cleaned) = Raise x
       /\ PyStr.contains "_cleaned.csv" (exn_str x) = false
       /\ PyStr.contains dataset_dir (exn_str x) = false.
Proof.
  repeat split; try (vm_compute; reflexivity).
  exists (unbound_local "df"). repeat split; vm_compute; reflexivity.
Qed.

Lemma C4_not_found_message_on_sample :
  snd (run world_no_cleaned)
  = [error_prefix
     ++ "No cleaned dataset found. Please run the cleaning notebook first."].
Proof.
  refine (proj1 (@C4_not_found_message mini world_no_cleaned
                   ["README.md"; "yellow_tripdata_2024-01.csv";
                    "trips_Cleaned.CSV"; "trips_cleaned.csv.bak"] _ _));
    reflexivity.
Defined.

(** C5, the claim as stated fails: the same two files under the same names,
    listed in the two possible orders.  The directory holds the same
    entries, yet one call loads [a_cleaned.csv] and returns one row, the
    other loads [b_cleaned.csv] and returns two. *)
Lemma C5_counterexample_order_of_listing :
  Permutation ["a_cleaned.csv"; "b_cleaned.csv"]
              ["b_cleaned.csv"; "a_cleaned.csv"]
  /\ os_listdir world_a_then_b dataset_dir
     = Ok ["a_cleaned.csv"; "b_cleaned.csv"]
  /\ os_listdir world_b_then_a dataset_dir
     = Ok ["b_cleaned.csv"; "a_cleaned.csv"]
  /\ read_text world_a_then_b = read_text world_b_then_a
  /\ hd_error (snd (run world_a_then_b))
     = Some (" Loading Dataset: " ++ os_path_join dataset_dir "a_cleaned.csv")
  /\ hd_error (snd (run world_b_then_a))
     = Some (" Loading Dataset: " ++ os_path_join dataset_dir "b_cleaned.csv")
  /\ (exists d, fst (run world_a_then_b) = Ok d /\ index d = 1)
  /\ (exists d, fst (run world_b_then_a) = Ok d /\ index d = 2).
Proof.
  split; [apply perm_swap|].
  repeat split; try (vm_compute; reflexivity);
    eexists; (split; [vm_compute; reflexivity | reflexivity]).
Qed.

Lemma C5_first_match_in_listing_order_on_sample :
  hd_error (snd (run world_a_then_b))
  = Some (" Loading Dataset: " ++ os_path_join dataset_dir "a_cleaned.csv").
Proof.
  refine (proj1 (@C5_first_match_in_listing_order mini world_a_then_b
                   [] ["b_cleaned.csv"] "a_cleaned.csv" _ _ _)).
  - reflexivity.
  - intros g [].
  - reflexivity.
Defined.

Lemma C6_undeclared_columns_unaltered_on_sample :
  exists files f d0,
    os_listdir world_good dataset_dir = Ok files
    /\ hd_error (cleaned_files files) = Some f
    /\ pd_read_csv (P := mini) world_good (os_path_join dataset_dir f) = Ok d0
    /\ List.length declared = 21
    /\ map fst (columns returned_good) = map fst (columns d0)
    /\ Forall2
         (fun c c' =>
            fst c' = fst c /\ (~ In (fst c) declared -> snd c' = snd c))
         (columns d0) (columns returned_good).
Proof.
  apply (@C6_undeclared_columns_unaltered mini world_good
           returned_good printed_good).
  vm_compute. reflexivity.
Defined.

(** C7, the claim as stated fails: the file has three lines below its
    header row, one of them empty; the call prints a row count of two and
    returns a table of two rows. *)
Lemma C7_counterexample_blank_line :
  data_line_count blank_line_csv = 3
  /\ nth_error (text_lines blank_line_csv) 2 = Some EmptyString
  /\ exists d out,
       run world_blank_line = (Ok d, out)
       /\ index d = 2
       /\ nth_error out 1
          = Some " Dataset Loaded Successfully! Total Rows: 2".
Proof.
  split; [vm_compute; reflexivity|]. split; [vm_compute; reflexivity|].
  destruct (run world_blank_line) as [r out] eqn:E. vm_compute in E.
  injection E as <- <-. eexists. eexists. split; [reflexivity|].
  split; reflexivity.
Qed.

Lemma C7_row_count_on_sample :
  index returned_good = data_line_count good_csv
  /\ exists d out,
       run world_blank_line = (Ok d, out)
       /\ index d = List.length (records blank_line_csv).
Proof.
  split.
  - refine (proj1 (proj2
              (@C7_row_count mini mini_csv_laws world_good
                 ["README.md"; "yellow_tripdata_2024-01.csv"; cleaned_name]
                 cleaned_name good_csv returned_good printed_good
                 _ _ _ _ _)) _);
      vm_compute; reflexivity.
  - destruct (run world_blank_line) as [r out] eqn:E.
    destruct r as [d|e]; [|vm_compute in E; discriminate].
    exists d, out. split; [reflexivity|].
    refine (proj1 (@C7_row_count mini mini_csv_laws world_blank_line
                     [cleaned_name] cleaned_name blank_line_csv d out
                     _ _ _ _ E));
      vm_compute; reflexivity.
Defined.


(** Likewise, a [passenger_count] written [1.5] converts without an error
    and is [1] in the table returned. *)
Example half_passenger_is_cut :
  column_text half_passenger_csv "passenger_count" = Some ["1"; "1.5"]
  /\ convertible (P := mini) parsed_half_passenger = true
  /\ exists d out,
       run world_half_passenger = (Ok d, out)
       /\ nth_error out 2 = Some enforcement_line
       /\ option_map s_cells
            (lookup (P := mini) "passenger_count" (columns d))
          = Some [Int 1; Int 1].
Proof.
  split; [vm_compute; reflexivity|]. split; [vm_compute; reflexivity|].
  destruct (run world_half_passenger) as [r out] eqn:E. vm_compute in E.
  injection E as <- <-. eexists. eexists. split; [reflexivity|].
  split; reflexivity.
Qed.


Lemma C10_failures_are_swallowed_on_sample :
  run world_no_directory
  = (Raise (unbound_local "df"),
     [error_line (no_such_file dataset_dir)]).
Proof.
  refine (proj1 (@C10_failures_are_swallowed mini world_no_directory
                   (no_such_file dataset_dir)
                   {| var_df := None; stdout := [] |} _)).
  reflexivity.
Defined.

End Samples.

(** * Further properties of the loader *)

(** ** Where [_set_types] stops when it raises *)

Section Stops.

Context {P : Pandas}.

Local Abbreviation Frame := (DataFrame Series).
Local Abbreviation Cols := (list (string * Series)).

Lemma converted_incl (d d' : list (string * dtype)) (cols0 cols : Cols) :
  incl d' d -> converted d cols0 cols -> converted d' cols0 cols.
Proof. intros Hi H k t s Hin. apply H. now apply Hi. Qed.

Lemma untouched_incl (d d' : list (string * dtype)) (cols0 cols : Cols) :
  incl (map fst d) (map fst d') ->
  untouched d cols0 cols -> untouched d' cols0 cols.
Proof. intros Hi H k Hk. apply H. intros Hin. apply Hk. now apply Hi. Qed.

(** Which names are missing depends on the columns of those names only. *)
Lemma missing_same (cols cols' : Cols) :
  forall ks,
    (forall k, In k ks -> lookup k cols' = lookup k cols) ->
    missing ks cols' = missing ks cols.
Proof.
  induction ks as [|k ks IH]; intros H; simpl; [reflexivity|].
  rewrite (H k (or_introl eq_refl)), IH; [reflexivity|].
  intros k' Hk'. apply H. now right.
Qed.

Lemma select_from_raise (err : exn) (cols : Cols) :
  forall ks e,
    select_from err ks cols = Raise e -> e = err /\ missing ks cols <> [].
Proof.
  induction ks as [|k ks IH]; simpl; intros e H; [discriminate|].
  destruct (lookup k cols) as [s|] eqn:El.
  - destruct (select_from err ks cols) as [sel|e'] eqn:Es; [discriminate|].
    injection H as <-. exact (IH e' eq_refl).
  - injection H as <-. split; [reflexivity | discriminate].
Qed.

Lemma select_from_ok (err : exn) (cols : Cols) :
  forall ks sel,
    select_from err ks cols = Ok sel ->
    missing ks cols = []
    /\ forall c, In c sel ->
         In (fst c) ks /\ lookup (fst c) cols = Some (snd c).
Proof.
  induction ks as [|k ks IH]; simpl; intros sel H.
  - injection H as <-. split; [reflexivity | intros c []].
  - destruct (lookup k cols) as [s|] eqn:El; [|discriminate].
    destruct (select_from err ks cols) as [sel'|]; [|discriminate].
    injection H as <-. destruct (IH sel' eq_refl) as [Hm Hc].
    split; [exact Hm|]. intros c [<-|Hin].
    + split; [now left | exact El].
    + destruct (Hc c Hin) as [Hk Hl]. split; [now right | exact Hl].
Qed.

(** A selection that raises: some of the names are missing, and the
    exception is the one that names them all. *)
Lemma select_raise (cols : Cols) (ks : list string) (e : exn) :
  select ks cols = Raise e ->
  missing ks cols <> [] /\ e = not_in_index ks (missing ks cols).
Proof.
  intros H. destruct (select_from_raise _ _ _ H) as [He Hm]. now split.
Qed.

Lemma select_ok_in (cols : Cols) (ks : list string) (sel : Cols) :
  select ks cols = Ok sel ->
  missing ks cols = []
  /\ forall c, In c sel ->
       In (fst c) ks /\ lookup (fst c) cols = Some (snd c).
Proof. apply select_from_ok. Qed.

Lemma astype_columns_raise (t : dtype) :
  forall (sel : Cols) e,
    astype_columns t sel = Raise e ->
    exists c, In c sel /\ astype t (snd c) = Raise e.
Proof.
  induction sel as [|[n s] sel IH]; simpl; intros e H; [discriminate|].
  destruct (astype t s) as [s'|e'] eqn:Ea.
  - destruct (astype_columns t sel) as [r|e''] eqn:Er; [discriminate|].
    injection H as <-. destruct (IH e'' eq_refl) as [c [Hin Hc]].
    exists c. split; [now right | exact Hc].
  - injection H as <-. exists (n, s). split; [now left | exact Ea].
Qed.

Lemma stops_update (cols0 : Cols) (done : list (string * dtype))
  (todo : list stage)
  (k : string) (t : dtype) (rest : M (Env Frame) unit) :
  ~ In k (map fst done) ->
  stops cols0 ((k, t) :: done) todo rest ->
  stops cols0 done (column k t :: todo)
    (v <- (s <- getitem k ;; lift (coerce t s)) ;; setitem k v ;; rest).
Proof.
  intros Hnd Hrest st e st' Hconv Hunt.
  unfold bind, getitem, lift, setitem.
  pose proof (Hunt k Hnd) as Hk.
  destruct (lookup k (columns (var_df st))) as [s|] eqn:El.
  - destruct (coerce t s) as [s'|e'] eqn:Ec.
    + intros H.
      assert (Hc1 : converted ((k, t) :: done) cols0
                      (assign k s' (columns (var_df st)))).
      { intros k0 t0 s0 [Heq|Hin] Hl0.
        - injection Heq as <- <-. rewrite <- Hk in Hl0.
          injection Hl0 as <-. exists s'. split; [exact Ec|].
          now rewrite lookup_assign, String.eqb_refl.
        - destruct (Hconv k0 t0 s0 Hin Hl0) as [s0' [Hc0 Hl0']].
          exists s0'. split; [exact Hc0|]. rewrite lookup_assign.
          destruct (String.eqb k k0) eqn:E; [|exact Hl0'].
          apply String.eqb_eq in E. subst k0. exfalso. apply Hnd.
          apply (in_map fst) in Hin. exact Hin. }
      assert (Hu1 : untouched ((k, t) :: done) cols0
                      (assign k s' (columns (var_df st)))).
      { intros k0 Hk0. simpl in Hk0. rewrite lookup_assign.
        destruct (String.eqb k k0) eqn:E.
        - apply String.eqb_eq in E. tauto.
        - apply Hunt. tauto. }
      pose proof (fun HA HB => Hrest _ e st' HA HB H) as Hr.
      cbn [var_df columns] in Hr.
      destruct (Hr Hc1 Hu1)
        as [n [g [Hn [Hcause [Hc' [Hu' [Hi Ho]]]]]]].
      cbn [var_df columns stdout index] in *.
      exists (S n), g. unfold converted_by in *.
      cbn [nth_error firstn map List.concat stage_columns].
      split; [exact Hn|]. split; [exact Hcause|].
      split; [|split; [|split; [exact Hi | exact Ho]]].
      * eapply converted_incl; [|exact Hc'].
        intros x Hx. simpl in Hx. rewrite ?in_app_iff in *. simpl.
        tauto.
      * eapply untouched_incl; [|exact Hu'].
        intros x Hx. apply in_map_iff in Hx. destruct Hx as [y [<- Hy]].
        apply in_map. rewrite in_app_iff in Hy. simpl in *.
        rewrite ?in_app_iff. tauto.
    + intros H. injection H as <- <-. exists 0, (column k t).
      unfold converted_by. cbn [nth_error firstn map List.concat app].
      split; [reflexivity|]. split; [|now repeat split].
      unfold cause. now rewrite <- Hk.
  - intros H. injection H as <- <-. exists 0, (column k t).
    unfold converted_by. cbn [nth_error firstn map List.concat app].
    split; [reflexivity|]. split; [|now repeat split].
    unfold cause. now rewrite <- Hk.
Qed.

Lemma stops_update_list (cols0 : Cols) (done : list (string * dtype))
  (todo : list stage)
  (ks : list string) (t : dtype) (rest : M (Env Frame) unit) :
  (forall s, coerce t s = astype t s) ->
  NoDup ks ->
  (forall k, In k ks -> ~ In k (map fst done)) ->
  stops cols0 (map (fun k => (k, t)) ks ++ done) todo rest ->
  stops cols0 done (group ks t :: todo)
    (v <- (sub <- getitem_list ks ;; lift (frame_astype t sub)) ;;
     setitem_list ks v ;; rest).
Proof.
  intros Hco Hnd Hfresh Hrest st e st' Hconv Hunt.
  unfold bind, getitem_list, lift, frame_astype, setitem_list.
  assert (Hm : missing ks (columns (var_df st)) = missing ks cols0).
  { apply missing_same. intros k Hin. exact (Hunt k (Hfresh k Hin)). }
  destruct (select ks (columns (var_df st))) as [sel|e1] eqn:Es.
  2:{ intros H. injection H as <- <-.
      destruct (select_raise _ _ Es) as [Hne ->].
      exists 0, (group ks t).
      unfold converted_by. cbn [nth_error firstn map List.concat app].
      split; [reflexivity|]. split; [|now repeat split].
      unfold cause. rewrite <- Hm.
      destruct (missing ks (columns (var_df st))); [now elim Hne|reflexivity]. }
  cbn [columns index].
  destruct (astype_columns t sel) as [conv|e1] eqn:Ea.
  2:{ intros H. injection H as <- <-.
      destruct (astype_columns_raise _ _ Ea) as [[k s] [Hin Hr]].
      destruct (select_ok_in _ _ Es) as [Hnone Hsel].
      destruct (Hsel _ Hin) as [Hk Hl]. cbn [fst snd] in *.
      exists 0, (group ks t).
      unfold converted_by. cbn [nth_error firstn map List.concat app].
      split; [reflexivity|]. split; [|now repeat split].
      unfold cause. rewrite <- Hm, Hnone.
      exists k, s. split; [exact Hk|]. split.
      - now rewrite <- (Hunt k (Hfresh k Hk)).
      - now rewrite Hco. }
  cbn [columns index].
  destruct (select_astype_inv _ _ _ Es Ea) as [Hn Hk].
  destruct (assign_zip_run conv conv (columns (var_df st)))
    as [cols' [Hz Hl']].
  { now rewrite Hn. }
  { intros [k s] Hin. apply lookup_present; [now rewrite Hn | exact Hin]. }
  rewrite Hn in Hz.
  replace (List.length conv) with (List.length ks)
    by (now rewrite <- Hn, length_map).
  rewrite Nat.eqb_refl. cbn [negb]. rewrite Hz. intros H.
  assert (Hc1 : converted (map (fun k => (k, t)) ks ++ done) cols0 cols').
  { intros k0 t0 s0 Hin Hl0. rewrite Hl'. apply in_app_or in Hin.
    destruct Hin as [Hin|Hin].
    + apply in_map_iff in Hin. destruct Hin as [k1 [Heq Hk1]].
      injection Heq as -> <-.
      destruct (Hk k0 Hk1) as [s [s' [Hl Ht]]].
      rewrite (Hunt k0 (Hfresh k0 Hk1)), Hl0 in Hl. injection Hl as <-.
      destruct (select_astype_run t (columns (var_df st)) Hnd)
        as [sel2 [conv2 [Hs2 [Hc2 [_ Hv2]]]]].
      { intros k Hin. apply Hk. exact Hin. }
      rewrite Es in Hs2. injection Hs2 as <-.
      rewrite Ea in Hc2. injection Hc2 as <-.
      rewrite <- (Hunt k0 (Hfresh k0 Hk1)) in Hl0.
      destruct (Hv2 k0 s0 Hk1 Hl0) as [s2 [Ha2 Hl2]].
      exists s2. rewrite Hco, Hl2. now split.
    + destruct (Hconv k0 t0 s0 Hin Hl0) as [s0' [Hc0 Hl0']].
      exists s0'. split; [exact Hc0|].
      rewrite lookup_absent; [exact Hl0'|]. rewrite Hn. intros Hin'.
      apply (Hfresh k0 Hin'). apply (in_map fst) in Hin. exact Hin. }
  assert (Hu1 : untouched (map (fun k => (k, t)) ks ++ done) cols0 cols').
  { intros k0 Hk0. rewrite Hl'. rewrite map_app, in_app_iff in Hk0.
    rewrite map_map in Hk0. cbn [fst] in Hk0. rewrite map_id in Hk0.
    rewrite lookup_absent by (rewrite Hn; tauto).
    apply Hunt. tauto. }
  pose proof (fun HA HB => Hrest _ e st' HA HB H) as Hr.
  cbn [var_df columns] in Hr.
  destruct (Hr Hc1 Hu1)
    as [n [g [Hnth [Hcause [Hc' [Hu' [Hi Ho]]]]]]].
  cbn [var_df columns stdout index] in *.
  exists (S n), g. unfold converted_by in *.
  cbn [nth_error firstn map List.concat stage_columns].
  split; [exact Hnth|]. split; [exact Hcause|].
  split; [|split; [|split; [exact Hi | exact Ho]]].
  - eapply converted_incl; [|exact Hc'].
    intros x Hx. rewrite ?in_app_iff in *. tauto.
  - eapply untouched_incl; [|exact Hu'].
    intros x Hx. apply in_map_iff in Hx. destruct Hx as [y [<- Hy]].
    apply in_map. rewrite ?in_app_iff in *. tauto.
Qed.

Lemma stops_prints (cols0 : Cols) (done : list (string * dtype))
  (line : string) (last : Env Frame -> string) :
  stops cols0 done [] (print line ;; fun st => print (last st) st).
Proof. intros st e st' _ _ H. unfold bind, print in H. discriminate. Qed.

Lemma set_types_stops (cols0 : Cols) : stops cols0 [] stages _set_types.
Proof.
  unfold _set_types, stages.
  apply (stops_update (t := datetime64)); [simpl; tauto|].
  apply (stops_update (t := datetime64)); [simpl; intuition discriminate|].
  apply stops_update_list;
    [reflexivity
    |repeat constructor; simpl; intuition discriminate
    |simpl; intuition (subst; discriminate)|].
  apply stops_update_list;
    [reflexivity
    |repeat constructor; simpl; intuition discriminate
    |simpl; intuition (subst; discriminate)|].
  apply (stops_update (t := category)); [simpl; intuition discriminate|].
  apply stops_prints.
Qed.

End Stops.

(** ** What [_set_types] prints *)

Section Output.

Context {P : Pandas}.

Local Abbreviation Frame := (DataFrame Series).

(** A run of [_set_types] that completes has printed its two closing lines,
    the second one with the memory usage of the frame as it then is. *)
Lemma set_types_closing_lines (st st' : Env Frame) :
  _set_types st = (Ok tt, st') ->
  stdout st'
  = (stdout st ++ [enforcement_line; memory_line (var_df st')])%list.
Proof.
  unfold _set_types, bind, getitem, getitem_list, lift, setitem,
    setitem_list, frame_astype, print.
  repeat match goal with
         | |- context [match ?x with _ => _ end] =>
             match x with
             | context [match _ with _ => _ end] => fail 1
             | _ => destruct x eqn:?; cbn [var_df stdout columns index];
                    try discriminate
             end
         end.
  intros H. injection H as <-. cbn [var_df stdout].
  now rewrite <- app_assoc.
Qed.

End Output.

(** ** Paths *)

Lemma append_assoc (a b c : string) : (a ++ b) ++ c = a ++ (b ++ c).
Proof. induction a as [|x a IH]; simpl; [reflexivity | now rewrite IH]. Qed.

(** Joining keeps the end of the last component. *)
Lemma join_endswith (a b suffix : string) :
  PyStr.endswith b suffix = true ->
  PyStr.endswith (os_path_join a b) suffix = true.
Proof.
  intros H. apply endswith_iff in H. destruct H as [stem ->].
  apply endswith_iff. unfold os_path_join.
  destruct (PyStr.startswith _ _).
  - now exists stem.
  - destruct (_ || _).
    + exists (a ++ stem). now rewrite append_assoc.
    + exists (a ++ "/" ++ stem). now rewrite !append_assoc.
Qed.

(** ** The extras *)

Section Extras.

Context {P : Pandas}.

Local Abbreviation Frame := (DataFrame Series).

(** X1.  [_set_types] completes without an exception exactly on the frames
    in which every declared column is present and converts. *)
Theorem X1_set_types_completes_iff_convertible (d0 : Frame)
  (out : list string) :
  (exists st', _set_types {| var_df := d0; stdout := out |} = (Ok tt, st'))
  <-> convertible d0 = true.
Proof.
  split.
  - intros [st' H]. exact (set_types_demands _ _ H).
  - intros H. destruct (set_types_completes d0 out H) as [st' [Hrun _]].
    now exists st'.
Qed.

(** X2.  When [_set_types] raises, it has stopped at one of its five
    assignments, and that assignment is the cause of the exception.  For
    the assignment of one column, the exception is the [KeyError] of its
    name if the column is missing, and what its conversion raised
    otherwise.  For the assignment of a list of columns, it is the
    [KeyError] with which pandas names all the missing columns of the list
    if some are missing, and what the conversion of one of the columns
    raised otherwise.  The assignments before it are done in full; every
    other column, those of the failing assignment included, is the column
    it was; the rows are the same and nothing has been printed. *)
Theorem X2_set_types_stops_between_assignments (st st' : Env Frame)
  (e : exn) :
  _set_types st = (Raise e, st') ->
  exists n g,
    nth_error stages n = Some g
    /\ match g with
       | column k t =>
           match lookup k (columns (var_df st)) with
           | None => e = key_error k
           | Some s => coerce t s = Raise e
           end
       | group ks t =>
           match missing ks (columns (var_df st)) with
           | [] =>
               exists k s,
                 In k ks
                 /\ lookup k (columns (var_df st)) = Some s
                 /\ coerce t s = Raise e
           | _ :: _ =>
               e = not_in_index ks (missing ks (columns (var_df st)))
           end
       end
    /\ (forall k t s,
          In (k, t) (converted_by n stages) ->
          lookup k (columns (var_df st)) = Some s ->
          exists s',
            match t with
            | datetime64 => to_datetime s
            | _ => astype t s
            end = Ok s'
            /\ lookup k (columns (var_df st')) = Some s')
    /\ (forall k,
          ~ In k (map fst (converted_by n stages)) ->
          lookup k (columns (var_df st'))
          = lookup k (columns (var_df st)))
    /\ index (var_df st') = index (var_df st)
    /\ stdout st' = stdout st.
Proof.
  intros H.
  destruct (@set_types_stops _ (columns (var_df st)) st e st')
    as [n [g [Hn [Hc [Hconv [Hunt [Hi Ho]]]]]]].
  - intros k t s [].
  - intros k _. reflexivity.
  - exact H.
  - rewrite app_nil_r in Hconv, Hunt.
    exists n, g. repeat split; assumption.
Qed.

(** X3.  A call prints one of four sequences of lines, and the sequence
    tells how it ended: the error alone (the listing failed or no entry
    matched) or the announced path and the error (the file did not parse),
    both without a table; the path, the row count and the error (type
    enforcement raised), or the path, the row count and the two closing
    lines of [_set_types], both with a table of that row count, the memory
    usage printed being that of the table returned. *)
Theorem X3_printed_lines_tell_the_outcome (w : World) :
  (exists e,
      load w = (Raise (unbound_local "df"), [error_line e]))
  \/ (exists f e,
        load w = (Raise (unbound_local "df"), [loading_line f; error_line e]))
  \/ (exists f d0 d' e,
        load w = (Ok d', [loading_line f; loaded_line d0; error_line e])
        /\ convertible d0 = false
        /\ index d' = index d0)
  \/ (exists f d0 d',
        load w = (Ok d', [loading_line f; loaded_line d0;
                          enforcement_line; memory_line d'])
        /\ convertible d0 = true
        /\ index d' = index d0).
Proof.
  destruct (os_listdir w dataset_dir) as [files|e] eqn:El.
  2:{ left. exists e. exact (load_listing_raises _ El). }
  destruct (cleaned_files files) as [|f rest] eqn:Ec.
  { left. exists not_found. exact (load_none_matches _ El Ec). }
  assert (Hf : hd_error (cleaned_files files) = Some f) by now rewrite Ec.
  rewrite (load_first_match _ El Hf).
  destruct (pd_read_csv w (os_path_join dataset_dir f)) as [d0|e].
  2:{ right. left. exists f, e. reflexivity. }
  right. right.
  destruct (_set_types _) as [[[]|e] st] eqn:Hrun.
  - right. exists f, d0, (var_df st).
    rewrite (set_types_closing_lines _ Hrun). cbn [stdout app].
    destruct (set_types_keeps _ Hrun) as [[Hi _] _].
    repeat split; [exact (set_types_demands _ _ Hrun) | exact Hi].
  - left. exists f, d0, (var_df st), e.
    destruct (@set_types_stops _ (columns d0)
                {| var_df := d0;
                   stdout := [loading_line f; loaded_line d0] |} e st
                (fun k t s (H : In (k, t) []) => match H with end)
                (fun k _ => eq_refl) Hrun)
      as [n [stage [_ [_ [_ [_ [Hi Ho]]]]]]].
    cbn [var_df stdout] in Hi, Ho. rewrite Ho. cbn [app].
    repeat split; [|exact Hi].
    destruct (convertible d0) eqn:Hc; [|reflexivity].
    destruct (set_types_completes d0 [loading_line f; loaded_line d0] Hc)
      as [st2 [Hrun2 _]].
    rewrite Hrun in Hrun2. discriminate.
Qed.

(** X4.  The caller receives a table exactly when the directory can be
    listed, some entry ends in [_cleaned.csv] and the first such entry
    parses; whether type enforcement then raises makes no difference. *)
Theorem X4_table_iff_first_candidate_parses (w : World) :
  (exists d' out, load w = (Ok d', out))
  <-> exists files f d0,
        os_listdir w dataset_dir = Ok files
        /\ hd_error (cleaned_files files) = Some f
        /\ pd_read_csv w (os_path_join dataset_dir f) = Ok d0.
Proof.
  split.
  - intros [d' [out H]].
    destruct (load_returns _ H) as [files [f [d0 [_ [_ [Hl [Hf [Hp _]]]]]]]].
    now exists files, f, d0.
  - intros [files [f [d0 [Hl [Hf Hp]]]]].
    rewrite (load_first_match _ Hl Hf), Hp.
    destruct (_set_types _) as [r st]. eauto.
Qed.

(** X5.  The path handed to [pd.read_csv] names an entry of the listing,
    ends in [_cleaned.csv], and is that entry directly inside the dataset
    directory unless the entry name starts with a slash. *)
Theorem X5_path_of_the_selected_file (files : list string) (f : string) :
  hd_error (cleaned_files files) = Some f ->
  In f files
  /\ PyStr.endswith (os_path_join dataset_dir f) "_cleaned.csv" = true
  /\ (PyStr.startswith f "/" = false ->
      os_path_join dataset_dir f = dataset_dir ++ "/" ++ f).
Proof.
  intros H.
  assert (Hin : In f (cleaned_files files)).
  { destruct (cleaned_files files); [discriminate|].
    injection H as ->. now left. }
  apply filter_In in Hin. destruct Hin as [Hin He].
  split; [exact Hin|]. split.
  - now apply join_endswith.
  - intros Hs. unfold os_path_join. now rewrite Hs.
Qed.

(** X6.  How a call ends depends on the listing only through its first
    entry ending in [_cleaned.csv]: two directories whose listings have the
    same first such entry (or none), with the same readable files, make
    the call end the same way.  Entries that do not match, and matching
    entries after the first, play no part. *)
Theorem X6_only_the_first_candidate_matters (w w' : World)
  (files files' : list string) :
  os_listdir w dataset_dir = Ok files ->
  os_listdir w' dataset_dir = Ok files' ->
  hd_error (cleaned_files files') = hd_error (cleaned_files files) ->
  (forall path, read_text w' path = read_text w path) ->
  load w' = load w.
Proof.
  intros Hl Hl' Hhd Hr.
  destruct (cleaned_files files) as [|f rest] eqn:Ec.
  - destruct (cleaned_files files') as [|f' rest'] eqn:Ec'; [|discriminate].
    now rewrite (load_none_matches _ Hl Ec), (load_none_matches _ Hl' Ec').
  - assert (Hf : hd_error (cleaned_files files) = Some f) by now rewrite Ec.
    cbn [hd_error] in Hhd.
    rewrite (load_first_match _ Hl Hf), (load_first_match _ Hl' Hhd).
    unfold pd_read_csv. now rewrite Hr.
Qed.

(** X7.  Type enforcement can be run again: when converting a converted
    column gives that column back, a second run of [_set_types] on a frame
    it has completed on completes as well, and the frame it leaves has the
    same rows, the same column names in the same order, and the same
    column under every name. *)
Theorem X7_set_types_twice
  (Hidem : forall t s s', coerce t s = Ok s' -> coerce t s' = Ok s')
  (st st1 : Env Frame) :
  _set_types st = (Ok tt, st1) ->
  exists st2,
    _set_types st1 = (Ok tt, st2)
    /\ index (var_df st2) = index (var_df st1)
    /\ map fst (columns (var_df st2)) = map fst (columns (var_df st1))
    /\ forall k, lookup k (columns (var_df st2))
                 = lookup k (columns (var_df st1)).
Proof.
  destruct st as [d0 out]. destruct st1 as [d1 out1]. intros Hrun.
  pose proof (set_types_demands _ _ Hrun) as Hc0.
  destruct (set_types_completes d0 out Hc0) as [st1' [Hrun' Hconv]].
  rewrite Hrun in Hrun'. injection Hrun' as <-. cbn [var_df] in Hconv.
  assert (Hfix : forall k t, In (k, t) type_map ->
            exists s', lookup k (columns d1) = Some s'
                       /\ coerce t s' = Ok s').
  { intros k t Hin.
    destruct (convertible_In d0 Hc0 Hin) as [s [s0 [Hs _]]].
    destruct (Hconv k t s Hin Hs) as [s' [Hco Hl]].
    exists s'. split; [exact Hl | exact (Hidem _ _ _ Hco)]. }
  assert (Hc1 : convertible d1 = true).
  { unfold convertible. apply forallb_forall. intros [k t] Hin.
    destruct (Hfix k t Hin) as [s' [Hl Hco]]. cbn [fst snd].
    now rewrite Hl, Hco. }
  destruct (set_types_completes d1 out1 Hc1) as [st2 [Hrun2 Hconv2]].
  exists st2. split; [exact Hrun2|].
  destruct (set_types_keeps _ Hrun2) as [[Hi Hcols] _].
  cbn [var_df] in Hi, Hcols, Hconv2 |- *.
  split; [exact Hi|]. split; [now apply same_columns_names|].
  intros k. destruct (in_dec string_dec k declared) as [Hd|Hd].
  - apply in_map_iff in Hd. destruct Hd as [[k' t] [Heq Hin]].
    cbn [fst] in Heq. subst k'.
    destruct (Hfix k t Hin) as [s' [Hl Hco]].
    destruct (Hconv2 k t s' Hin Hl) as [s2 [Hco2 Hl2]].
    rewrite Hco in Hco2. injection Hco2 as <-. now rewrite Hl2, Hl.
  - now apply same_columns_lookup.
Qed.

End Extras.

(** ** The extras on the sample directories *)

Section ExtraSamples.

Import MiniPandas.

Lemma map_result_fixed {A} (f : A -> result A) :
  (forall a b, f a = Ok b -> f b = Ok b) ->
  forall l l', map_result f l = Ok l' -> map_result f l' = Ok l'.
Proof.
  intros Hf. induction l as [|a l IH]; simpl; intros l' H.
  - injection H as <-. reflexivity.
  - destruct (f a) as [b|] eqn:Ea; [|discriminate].
    destruct (map_result f l) as [r|] eqn:Er; [|discriminate].
    injection H as <-. simpl. now rewrite (Hf _ _ Ea), (IH r eq_refl).
Qed.

Lemma convert_fixed (t : dtype) (f : cell -> result cell) :
  (forall a b, f a = Ok b -> f b = Ok b) ->
  forall s s', convert t f s = Ok s' -> convert t f s' = Ok s'.
Proof.
  intros Hf s s'. unfold convert.
  destruct (map_result f (s_cells s)) as [cells|] eqn:E; [|discriminate].
  intros H. injection H as <-. cbn [s_cells].
  now rewrite (map_result_fixed f Hf _ E).
Qed.

Lemma cell_to_datetime_fixed (a b : cell) :
  cell_to_datetime a = Ok b -> cell_to_datetime b = Ok b.
Proof.
  destruct a as [s|z|x|ns|]; simpl.
  - destruct (parse_timestamp s);
      [|destruct (civil_timestamp s); discriminate].
    intros H. now injection H as <-.
  - intros H. now injection H as <-.
  - destruct (trunc_float x); intros H; now injection H as <-.
  - intros H. now injection H as <-.
  - intros H. now injection H as <-.
Qed.

Lemma cell_to_int64_fixed (a b : cell) :
  cell_to_int64 a = Ok b -> cell_to_int64 b = Ok b.
Proof.
  assert (Hfix : forall z, in_int64 z = true ->
                   cell_to_int64 (Int z) = Ok (Int z)).
  { intros z Hz. cbn [cell_to_int64]. now rewrite (wrap64_id _ Hz). }
  destruct a as [s|z|x|ns|]; cbn [cell_to_int64].
  - destruct (parse_int s) as [z|]; [|discriminate].
    destruct (in_int64 z) eqn:Hz; [|discriminate].
    intros H. injection H as <-. now apply Hfix.
  - intros H. injection H as <-. apply Hfix, wrap64_in.
  - destruct (trunc_float x) as [z|]; [|discriminate].
    intros H. injection H as <-. apply Hfix.
    destruct (in_int64 z) eqn:Hz; [exact Hz | reflexivity].
  - intros H. injection H as <-. apply Hfix, wrap64_in.
  - discriminate.
Qed.

Lemma cell_to_uint64_fixed (a b : cell) :
  cell_to_uint64 a = Ok b -> cell_to_uint64 b = Ok b.
Proof.
  assert (Hmod : forall z,
            cell_to_uint64 (Int (z mod 2 ^ 64)) = Ok (Int (z mod 2 ^ 64))).
  { intros z. cbn [cell_to_uint64]. now rewrite Z.mod_mod. }
  destruct a as [s|z|x|ns|]; cbn [cell_to_uint64].
  - destruct (parse_int s) as [z|]; [|discriminate].
    destruct (in_uint64 z) eqn:Hz; [|discriminate].
    intros H. injection H as <-. cbn [cell_to_uint64].
    unfold in_uint64 in Hz. apply andb_prop in Hz. destruct Hz as [H1 H2].
    apply Z.leb_le in H1. apply Z.ltb_lt in H2.
    now rewrite Z.mod_small.
  - intros H. injection H as <-. apply Hmod.
  - destruct (trunc_float x) as [z|]; [|discriminate].
    intros H. injection H as <-. apply Hmod.
  - intros H. injection H as <-. apply Hmod.
  - discriminate.
Qed.

Lemma cell_to_float64_fixed (a b : cell) :
  cell_to_float64 a = Ok b -> cell_to_float64 b = Ok b.
Proof.
  destruct a as [s|z|x|ns|]; simpl; try discriminate.
  - destruct (parse_float s); [|discriminate].
    intros H. now injection H as <-.
  - intros H. now injection H as <-.
  - intros H. now injection H as <-.
Qed.

(** In MiniPandas a converted column converts to itself. *)
Lemma mini_conversions_fixed (t : dtype) (s s' : series) :
  coerce (P := mini) t s = Ok s' -> coerce (P := mini) t s' = Ok s'.
Proof.
  destruct t; simpl; unfold mini_astype, mini_to_datetime.
  - intros H. now injection H as <-.
  - apply convert_fixed, cell_to_int64_fixed.
  - apply convert_fixed, cell_to_uint64_fixed.
  - apply convert_fixed, cell_to_float64_fixed.
  - apply convert_fixed, cell_to_datetime_fixed.
  - intros H. now injection H as <-.
Qed.

(** A frame without [VendorID]: the assignment of the integer columns
    raises the [KeyError] that names it, after the two timestamp columns
    have been converted. *)
Lemma X2_set_types_stops_between_assignments_on_sample :
  let st := {| var_df := parsed_without_vendor; stdout := [] |} in
  exn_str (not_in_index (Pandas := mini) int_features ["VendorID"])
  = String "034" "['VendorID'] not in index" ++ String "034" EmptyString
  /\ index (var_df (snd (_set_types (P := mini) st)))
     = index parsed_without_vendor
  /\ stdout (snd (_set_types (P := mini) st)) = [].
Proof.
  intros st.
  destruct (@X2_set_types_stops_between_assignments mini st
              (snd (_set_types (P := mini) st))
              (not_in_index (Pandas := mini) int_features ["VendorID"]))
    as [n [g [_ [_ [_ [_ [Hi Ho]]]]]]].
  - vm_compute. reflexivity.
  - split; [reflexivity|]. split; [exact Hi | exact Ho].
Defined.

Lemma X5_path_of_the_selected_file_on_sample :
  PyStr.endswith (os_path_join dataset_dir cleaned_name) "_cleaned.csv" = true.
Proof.
  refine (proj1 (proj2
            (@X5_path_of_the_selected_file
               ["README.md"; "yellow_tripdata_2024-01.csv"; cleaned_name]
               cleaned_name _))).
  reflexivity.
Defined.

Lemma X6_only_the_first_candidate_matters_on_sample :
  load (P := mini) (world [cleaned_name] [(cleaned_name, good_csv)])
  = load (P := mini) world_good.
Proof.
  apply (@X6_only_the_first_candidate_matters mini world_good
           (world [cleaned_name] [(cleaned_name, good_csv)])
           ["README.md"; "yellow_tripdata_2024-01.csv"; cleaned_name]
           [cleaned_name]).
  - reflexivity.
  - reflexivity.
  - reflexivity.
  - intros path. reflexivity.
Defined.

Lemma X7_set_types_twice_on_sample :
  let st := {| var_df := parsed_good; stdout := [] |} in
  exists st2,
    _set_types (P := mini) (snd (_set_types (P := mini) st)) = (Ok tt, st2)
    /\ index (var_df st2) = index (var_df (snd (_set_types (P := mini) st))).
Proof.
  intros st.
  destruct (@X7_set_types_twice mini mini_conversions_fixed st
              (snd (_set_types (P := mini) st)))
    as [st2 [Hrun [Hi _]]].
  - vm_compute. reflexivity.
  - exists st2. split; [exact Hrun | exact Hi].
Defined.

End ExtraSamples.

(** ** What the caller holds after a failed type enforcement *)

Section PartlyTyped.

Context {P : Pandas}.

Local Abbreviation Frame := (DataFrame Series).

(** X8.  When the selected file parses and some declared column of it is
    missing or does not convert, the table the call returns is the parsed
    table with the assignments of [_set_types] before the failing one
    applied in full and nothing else changed, and the three lines printed
    end with the error that stopped it: for the assignment of one column,
    the [KeyError] of its name or what its conversion raised; for the
    assignment of a list of columns, the [KeyError] with which pandas names
    all the missing columns of the list, or what the conversion of one of
    its columns raised. *)
Theorem X8_table_returned_after_failed_enforcement (w : World)
  (files : list string) (f : string) (d0 : Frame) :
  os_listdir w dataset_dir = Ok files ->
  hd_error (cleaned_files files) = Some f ->
  pd_read_csv w (os_path_join dataset_dir f) = Ok d0 ->
  convertible d0 = false ->
  exists d' e n g,
    load w = (Ok d', [loading_line f; loaded_line d0; error_line e])
    /\ nth_error stages n = Some g
    /\ match g with
       | column k t =>
           match lookup k (columns d0) with
           | None => e = key_error k
           | Some s => coerce t s = Raise e
           end
       | group ks t =>
           match missing ks (columns d0) with
           | [] =>
               exists k s,
                 In k ks
                 /\ lookup k (columns d0) = Some s
                 /\ coerce t s = Raise e
           | _ :: _ => e = not_in_index ks (missing ks (columns d0))
           end
       end
    /\ (forall k t s,
          In (k, t) (converted_by n stages) ->
          lookup k (columns d0) = Some s ->
          exists s',
            match t with
            | datetime64 => to_datetime s
            | _ => astype t s
            end = Ok s'
            /\ lookup k (columns d') = Some s')
    /\ (forall k,
          ~ In k (map fst (converted_by n stages)) ->
          lookup k (columns d') = lookup k (columns d0))
    /\ index d' = index d0.
Proof.
  intros Hl Hf Hp Hc.
  destruct (set_types_raises d0 [loading_line f; loaded_line d0] Hc)
    as [e [st [Hrun _]]].
  destruct (@set_types_stops _ (columns d0)
              {| var_df := d0; stdout := [loading_line f; loaded_line d0] |}
              e st
              (fun k t s (H : In (k, t) []) => match H with end)
              (fun k _ => eq_refl) Hrun)
    as [n [g [Hn [Hca [Hconv [Hunt [Hi Ho]]]]]]].
  rewrite app_nil_r in Hconv, Hunt. cbn [var_df stdout] in *.
  exists (var_df st), e, n, g.
  rewrite (load_first_match _ Hl Hf), Hp, Hrun, Ho. cbn [app].
  repeat split; assumption.
Qed.

End PartlyTyped.

Lemma X8_table_returned_after_failed_enforcement_on_sample :
  exists d' e n stage,
    load (P := MiniPandas.mini) MiniPandas.world_bad_fare
    = (Ok d', [loading_line MiniPandas.cleaned_name;
               loaded_line (P := MiniPandas.mini) MiniPandas.parsed_bad;
               error_line e])
    /\ nth_error stages n = Some stage
    /\ index d' = index MiniPandas.parsed_bad.
Proof.
  destruct (@X8_table_returned_after_failed_enforcement MiniPandas.mini
              MiniPandas.world_bad_fare
              ["yellow_tripdata_2024-01.csv"; MiniPandas.cleaned_name]
              MiniPandas.cleaned_name MiniPandas.parsed_bad)
    as [d' [e [n [stage [Hrun [Hn [_ [_ [_ Hi]]]]]]]]];
    try (vm_compute; reflexivity).
  exists d', e, n, stage. repeat split; assumption.
Defined.
